(** * StockSphere signal engine: app/api/stock-predictions/route.ts

    A shallow embedding of [StockPredictionService] and of the [GET]
    handler, with the properties of the engine proved over it.

    JavaScript numbers are IEEE 754 binary64 values.  They are modelled by
    [spec_float] at precision 53 and maximal exponent 1024, so that every
    rounding the program performs is performed here as well.  Decimal
    literals of the source are the correctly rounded quotients of two
    integers, which is how the language reads them. *)

From Stdlib Require Import ZArith QArith Qabs Qminmax List Sorted String Ascii Bool Lia.
From Stdlib Require Import Floats.SpecFloat DecimalString.
Import ListNotations.

Local Open Scope Z_scope.

(** ** Numbers *)

Module JS.

Definition prec : Z := 53.
Definition emax : Z := 1024.

Definition number := spec_float.

Definition of_Z (n : Z) : number := binary_normalize prec emax n 0 false.

Definition add : number -> number -> number := SFadd prec emax.
Definition sub : number -> number -> number := SFsub prec emax.
Definition mul : number -> number -> number := SFmul prec emax.
Definition div : number -> number -> number := SFdiv prec emax.
Definition sqrt : number -> number := SFsqrt prec emax.

(** The literal written [n/d] in decimal, e.g. [lit 2 10] for [0.2]. *)
Definition lit (n d : Z) : number := div (of_Z n) (of_Z d).

Definition NaN : number := S754_nan.
Definition zero : number := S754_zero false.

(** [a < b], [a > b], [a >= b], [a <= b]: false as soon as one side is NaN. *)
Definition lt (a b : number) : bool := SFltb a b.
Definition gt (a b : number) : bool := SFltb b a.
Definition ge (a b : number) : bool := SFleb b a.
Definition le (a b : number) : bool := SFleb a b.

Definition is_nan (x : number) : bool :=
  match x with S754_nan => true | _ => false end.

Definition is_zero (x : number) : bool :=
  match x with S754_zero _ => true | _ => false end.

(** Truthiness of a number: everything but NaN, +0 and -0. *)
Definition truthy (x : number) : bool := negb (is_nan x || is_zero x).

(** [x || y] on numbers. *)
Definition or_else (x y : number) : number := if truthy x then x else y.

Definition Math_abs (x : number) : number := SFabs x.

(** [Math.sign]: NaN and the two zeros are returned unchanged. *)
Definition Math_sign (x : number) : number :=
  match x with
  | S754_nan => S754_nan
  | S754_zero s => S754_zero s
  | S754_infinity s | S754_finite s _ _ => if s then of_Z (-1) else of_Z 1
  end.

(** [Math.min] and [Math.max] of two arguments: NaN is contagious and
    -0 is smaller than +0. *)
Definition Math_min (a b : number) : number :=
  match a, b with
  | S754_nan, _ | _, S754_nan => S754_nan
  | S754_zero sa, S754_zero sb => S754_zero (sa || sb)
  | _, _ => if SFltb b a then b else a
  end.

Definition Math_max (a b : number) : number :=
  match a, b with
  | S754_nan, _ | _, S754_nan => S754_nan
  | S754_zero sa, S754_zero sb => S754_zero (sa && sb)
  | _, _ => if SFltb a b then b else a
  end.

(** [Math.round]: the nearest integer, a tie going towards +infinity;
    a result of zero keeps the sign of the argument. *)
Definition Math_round (x : number) : number :=
  match x with
  | S754_finite s m e =>
      if 0 <=? e then x
      else
        let d := 2 ^ (- e) in
        let n := ((if s then - (2 * Z.pos m) else 2 * Z.pos m) + d) / (2 * d) in
        if n =? 0 then S754_zero s else of_Z n
  | _ => x
  end.

(** The exact value of a finite number, as a rational. *)
Definition toQ (x : number) : Q :=
  match x with
  | S754_finite s m e =>
      let v := (inject_Z (Z.pos m) * Qpower 2 e)%Q in
      if s then Qopp v else v
  | _ => 0%Q
  end.

Definition is_finite (x : number) : bool :=
  match x with
  | S754_finite _ _ _ | S754_zero _ => true
  | _ => false
  end.

End JS.

Import JS.

Local Open Scope string_scope.

(** ** Data model *)

Inductive Action := BUY | HOLD | SELL.

(** The object returned by [analyzeSentiment]. *)
Record Sentiment := {
  avgSentiment : number;
  sentimentVolatility : number;
  positiveNewsRatio : number;
  negativeNewsRatio : number;
  newsVolume : number
}.

(** The object returned by [generateMockTechnicalData]. *)
Record Technical := {
  currentPrice : number;
  priceChange1d : number;
  volumeRatio : number;
  rsi : number;
  macd : number;
  bbPosition : number;
  sma20Ratio : number;
  sma50Ratio : number;
  volatility : number
}.

(** The object returned by [makeSimplePrediction]. *)
Record Decision := {
  action : Action;
  confidence : number;
  reasoning : list string
}.

(** ** makeSimplePrediction

    The function mutates two locals, [score] and [reasoning].  Each [if]
    statement of the body is one step on the pair of locals. *)

Record Locals := { score : number; reasons : list string }.

Definition push (l : list string) (x : string) : list string := l ++ [x].

(** [score += n; reasoning.push(why)] and [score -= n; reasoning.push(why)] *)
Definition plus (st : Locals) (n : Z) (why : string) : Locals :=
  {| score := add (score st) (of_Z n); reasons := push (reasons st) why |}.

Definition minus (st : Locals) (n : Z) (why : string) : Locals :=
  {| score := sub (score st) (of_Z n); reasons := push (reasons st) why |}.

Definition init : Locals := {| score := of_Z 0; reasons := [] |}.

Definition step_sentiment (sentiment : Sentiment) (st : Locals) : Locals :=
  if gt (avgSentiment sentiment) (lit 2 10) then
    plus st 2 "Positive news sentiment"
  else if lt (avgSentiment sentiment) (SFopp (lit 2 10)) then
    minus st 2 "Negative news sentiment"
  else st.

Definition step_rsi (technical : Technical) (st : Locals) : Locals :=
  if lt (rsi technical) (of_Z 30) then
    plus st 2 "RSI indicates oversold condition"
  else if gt (rsi technical) (of_Z 70) then
    minus st 2 "RSI indicates overbought condition"
  else st.

Definition step_macd (technical : Technical) (st : Locals) : Locals :=
  if gt (macd technical) (of_Z 0) then
    plus st 1 "MACD shows bullish momentum"
  else
    minus st 1 "MACD shows bearish momentum".

Definition step_price (technical : Technical) (st : Locals) : Locals :=
  if gt (priceChange1d technical) (of_Z 2) then
    plus st 1 "Strong recent price momentum"
  else if lt (priceChange1d technical) (SFopp (of_Z 2)) then
    minus st 1 "Weak recent price momentum"
  else st.

Definition step_volume (technical : Technical) (st : Locals) : Locals :=
  if gt (volumeRatio technical) (lit 15 10) then
    {| score := add (score st) (mul (Math_sign (score st)) (lit 5 10));
       reasons := push (reasons st) "High volume confirms trend" |}
  else st.

(** The locals when control reaches the comment "Determine action". *)
Definition locals_before_decision (sentiment : Sentiment) (technical : Technical)
  : Locals :=
  step_volume technical
    (step_price technical
       (step_macd technical
          (step_rsi technical
             (step_sentiment sentiment init)))).

(** [action] and the unrounded [confidence] chosen from the score. *)
Definition decide (score : number) : Action * number :=
  if ge score (of_Z 3) then
    (BUY, Math_min (lit 9 10)
            (add (lit 6 10) (mul (sub score (of_Z 3)) (lit 1 10))))
  else if le score (SFopp (of_Z 3)) then
    (SELL, Math_min (lit 9 10)
             (add (lit 6 10) (mul (Math_abs (add score (of_Z 3))) (lit 1 10))))
  else
    (HOLD, add (lit 5 10) (mul (Math_abs score) (lit 5 100))).

(** [Math.round(confidence * 100) / 100] *)
Definition round_confidence (c : number) : number :=
  div (Math_round (mul c (of_Z 100))) (of_Z 100).

(** [reasoning.slice(0, 3)] *)
Definition slice_0_3 (l : list string) : list string := firstn 3 l.

Definition makeSimplePrediction (sentiment : Sentiment) (technical : Technical)
  : Decision :=
  let st := locals_before_decision sentiment technical in
  let '(a, c) := decide (score st) in
  {| action := a;
     confidence := round_confidence c;
     reasoning := slice_0_3 (reasons st) |}.

(** ** Strings *)

Definition lower_ascii (c : ascii) : ascii :=
  let n := nat_of_ascii c in
  if (65 <=? n)%nat && (n <=? 90)%nat then ascii_of_nat (n + 32) else c.

(** [toLowerCase] for texts of characters below 128: the letters A to Z
    become a to z and every other character stays. *)
Fixpoint toLowerCase (s : string) : string :=
  match s with
  | EmptyString => EmptyString
  | String c r => String (lower_ascii c) (toLowerCase r)
  end.

(** [text.includes(word)]: [word] occurs somewhere in [text]. *)
Fixpoint includes (text word : string) : bool :=
  String.prefix word text ||
  match text with
  | EmptyString => false
  | String _ r => includes r word
  end.

(** [s.split(",")]: never empty, the empty string gives one empty field. *)
Fixpoint split_comma (s : string) : list string :=
  match s with
  | EmptyString => [EmptyString]
  | String c r =>
      match split_comma r with
      | [] => [String c EmptyString]
      | field :: more =>
          if Ascii.eqb c "," then EmptyString :: field :: more
          else String c field :: more
      end
  end.

Definition is_space (c : ascii) : bool :=
  let n := nat_of_ascii c in
  (n =? 32)%nat || ((9 <=? n)%nat && (n <=? 13)%nat).

Fixpoint trim_start (s : string) : string :=
  match s with
  | String c r => if is_space c then trim_start r else s
  | EmptyString => s
  end.

Definition digit_of (c : ascii) : option Z :=
  let n := nat_of_ascii c in
  if (48 <=? n)%nat && (n <=? 57)%nat then Some (Z.of_nat (n - 48)) else None.

Fixpoint leading_digits (s : string) (acc : option Z) : option Z :=
  match s with
  | String c r =>
      match digit_of c with
      | Some d =>
          leading_digits r
            (Some (10 * (match acc with Some a => a | None => 0 end) + d)%Z)
      | None => acc
      end
  | EmptyString => acc
  end.

(** [parseInt(s, 10)] *)
Definition parseInt10 (s : string) : number :=
  let s := trim_start s in
  let '(negative, s) :=
    match s with
    | String "-" r => (true, r)
    | String "+" r => (false, r)
    | _ => (false, s)
    end in
  match leading_digits s None with
  | None => NaN
  | Some 0%Z => S754_zero negative
  | Some n => of_Z (if negative then - n else n)
  end.

(** The decimal form of an integer, as a template literal prints it. *)
Definition string_of_Z (n : Z) : string :=
  DecimalString.NilZero.string_of_int (Z.to_int n).

(** ** The world outside the service

    The service reads an environment variable, sends HTTP requests to the
    news source, draws pseudo-random numbers, reads the clock and writes to
    the console.  [World] fixes what the outside answers; [Trace] records
    what the service has done so far.  A request to the news source is
    recorded by the [hours] argument it was built from: the query, the key
    and the page size of the URL are constants of the source, and its
    [from-date] is computed from [hours] and the clock.

    The clock is read in two ways: [Date.now()] gives the time value of the
    reading, [new Date().toISOString()] gives its text.  [time_value] and
    [clock] answer the two for the reading of a given number, and
    [clock_reads] counts the readings of both kinds. *)

(** [Date.now() - hours * 60 * 60 * 1000], with [now] for [Date.now()]. *)
Definition from_date_value (now hours : number) : number :=
  sub now (mul (mul (mul hours (of_Z 60)) (of_Z 60)) (of_Z 1000)).

(** Whether [new Date(tv)] is a valid date, that is whether [toISOString]
    returns rather than throws a [RangeError]: [tv] is finite and at most
    8.64e15 milliseconds away from the epoch. *)
Definition is_date (tv : number) : bool :=
  is_finite tv && le (Math_abs tv) (of_Z 8640000000000000).

(** A thrown value: an [Error] object with its message, or anything else. *)
Inductive exn := JsError (message : string) | JsOther.

(** One element of [data.response.results]. *)
Record Article := {
  webTitle : string;
  trailText : option string;
  webPublicationDate : string;
  webUrl : string
}.

Record NewsItem := {
  title : string;
  description : string;
  publishedAt : string;
  url : string
}.

(** What [res.json()] gives: a document in which [data?.response?.results]
    is an array or is missing, or else something that makes the rest of
    [fetchGuardianNews] throw (a rejection of [res.json()], or results that
    cannot be mapped over). *)
Inductive Payload :=
  | JsonRejects (e : exn)
  | Json (results : option (list Article)).

(** What [fetch(url)] gives: a rejection, or a response. *)
Inductive FetchOutcome :=
  | Rejects (e : exn)
  | Responds (status : Z) (body : Payload).

(** [clock_sane] is what every clock set between 1970 and the year 275760
    grants: at each reading, the instant 24 hours earlier is a date. *)
Record World := {
  GUARDIAN_KEY : option string;
  network : nat -> number -> FetchOutcome;
  random : nat -> number;
  clock : nat -> string;
  time_value : nat -> number;
  clock_sane :
    forall k : nat, is_date (from_date_value (time_value k) (of_Z 24)) = true
}.

Record Trace := {
  requests : list number;
  randoms : nat;
  clock_reads : nat;
  console : list (string * exn)
}.

Definition quiet : Trace :=
  {| requests := []; randoms := 0; clock_reads := 0; console := [] |}.

Inductive Outcome (A : Type) :=
  | Returns (a : A)
  | Throws (e : exn).
Arguments Returns {A} a.
Arguments Throws {A} e.

Definition M (A : Type) : Type := Trace -> Outcome A * Trace.

Definition ret {A} (a : A) : M A := fun tr => (Returns a, tr).

Definition throw {A} (e : exn) : M A := fun tr => (Throws e, tr).

Definition bind {A B} (m : M A) (k : A -> M B) : M B :=
  fun tr =>
    match m tr with
    | (Returns a, tr') => k a tr'
    | (Throws e, tr') => (Throws e, tr')
    end.

(** [try { m } catch (error) { handler error }] *)
Definition try_catch {A} (m : M A) (handler : exn -> M A) : M A :=
  fun tr =>
    match m tr with
    | (Returns a, tr') => (Returns a, tr')
    | (Throws e, tr') => handler e tr'
    end.

Declare Scope js_scope.
Delimit Scope js_scope with js.
Notation "x <- m ;; k" := (bind m (fun x => k))
  (at level 61, m at next level, right associativity) : js_scope.
Notation "m ;;; k" := (bind m (fun _ => k))
  (at level 61, right associativity) : js_scope.
Local Open Scope js_scope.

Section Runtime.

Variable w : World.

(** [fetch(url)] for the URL built from [hours]. *)
Definition fetch (hours : number) : M (Z * Payload) :=
  fun tr =>
    let tr' := {| requests := requests tr ++ [hours];
                  randoms := randoms tr;
                  clock_reads := clock_reads tr;
                  console := console tr |} in
    match network w (List.length (requests tr)) hours with
    | Rejects e => (Throws e, tr')
    | Responds status body => (Returns (status, body), tr')
    end.

(** [res.ok] *)
Definition ok (status : Z) : bool := ((200 <=? status) && (status <=? 299))%Z.

(** [res.json()] followed by [data?.response?.results ?? []] *)
Definition json_results (body : Payload) : M (list Article) :=
  match body with
  | JsonRejects e => throw e
  | Json (Some results) => ret results
  | Json None => ret []
  end.

Definition Math_random : M number :=
  fun tr =>
    (Returns (random w (randoms tr)),
     {| requests := requests tr;
        randoms := S (randoms tr);
        clock_reads := clock_reads tr;
        console := console tr |}).

(** [Date.now()] *)
Definition Date_now : M number :=
  fun tr =>
    (Returns (time_value w (clock_reads tr)),
     {| requests := requests tr;
        randoms := randoms tr;
        clock_reads := S (clock_reads tr);
        console := console tr |}).

(** [new Date().toISOString()] *)
Definition now_iso : M string :=
  fun tr =>
    (Returns (clock w (clock_reads tr)),
     {| requests := requests tr;
        randoms := randoms tr;
        clock_reads := S (clock_reads tr);
        console := console tr |}).

Definition console_error (label : string) (e : exn) : M unit :=
  fun tr =>
    (Returns tt,
     {| requests := requests tr;
        randoms := randoms tr;
        clock_reads := clock_reads tr;
        console := console tr ++ [(label, e)] |}).

End Runtime.

(** ** StockPredictionService *)

Record TechnicalIndicators := {
  ti_rsi : number;
  ti_macd : number;
  ti_volatility : number;
  ti_priceChange1d : number
}.

(** The object returned by [predictStock]. *)
Record Prediction := {
  symbol : string;
  prediction : Action;
  p_confidence : number;
  p_reasoning : list string;
  p_currentPrice : number;
  technicalIndicators : TechnicalIndicators;
  sentimentAnalysis : Sentiment;
  timestamp : string
}.

(** One element of the array built by [predictPortfolio]: a prediction, or
    the marker [{symbol, error}]. *)
Inductive Entry :=
  | Predicted (p : Prediction)
  | Failed (symbol : string) (error : string).

Definition positiveWords : list string :=
  ["growth"; "profit"; "increase"; "rise"; "gain"; "success"; "strong";
   "beat"; "exceed"; "up"].

Definition negativeWords : list string :=
  ["decline"; "loss"; "fall"; "drop"; "weak"; "miss"; "concern"; "risk";
   "uncertainty"; "down"].

(** [values.length] as a number *)
Definition length_of {A} (l : list A) : number := of_Z (Z.of_nat (List.length l)).

(** [values.reduce((a, b) => a + b, 0)] *)
Definition sum (values : list number) : number := fold_left add values (of_Z 0).

(** The callback of [newsItems.map] in [analyzeSentiment]. *)
Definition item_sentiment (item : NewsItem) : number :=
  let text := toLowerCase (title item ++ " " ++ description item) in
  let score := of_Z 0 in
  let score :=
    fold_left (fun score word =>
                 if includes text word then add score (of_Z 1) else score)
      positiveWords score in
  let score :=
    fold_left (fun score word =>
                 if includes text word then sub score (of_Z 1) else score)
      negativeWords score in
  Math_max (SFopp (of_Z 1)) (Math_min (of_Z 1) (div score (of_Z 5))).

(** The callback of [results.map] in [fetchGuardianNews]. *)
Definition to_item (article : Article) : NewsItem :=
  {| title := webTitle article;
     description := match trailText article with Some t => t | None => "" end;
     publishedAt := webPublicationDate article;
     url := webUrl article |}.

Definition default_symbols : list string := ["AAPL"; "GOOGL"; "MSFT"].

Definition disclaimer_text : string :=
  "This is for educational purposes only. Not financial advice. Past performance does not guarantee future results.".

Record Summary := {
  totalSymbols : number;
  buySignals : number;
  sellSignals : number;
  holdSignals : number;
  avgConfidence : number;
  s_timestamp : string
}.

Inductive HttpResponse :=
  | Ok200 (predictions : list Entry) (summary : Summary) (disclaimer : string)
  | Err500 (error : string) (details : string).

(** The query parameters [symbols] and [hours]; [None] when absent. *)
Record Request := {
  symbols_param : option string;
  hours_param : option string
}.

(** [error instanceof Error ? error.message : 'Unknown error'] *)
Definition message_of (e : exn) : string :=
  match e with
  | JsError m => m
  | JsOther => "Unknown error"
  end.

(** [!p.error]: the property is absent on a prediction, and a string is
    falsy only when empty. *)
Definition no_error (p : Entry) : bool :=
  match p with
  | Predicted _ => true
  | Failed _ error => String.eqb error ""
  end.

(** [!p.error && p.prediction === a] *)
Definition signals (a : Action) (p : Entry) : bool :=
  no_error p &&
  match p with
  | Predicted q =>
      match prediction q, a with
      | BUY, BUY | SELL, SELL | HOLD, HOLD => true
      | _, _ => false
      end
  | Failed _ _ => false
  end.

(** [!p.error && p.confidence] *)
Definition has_confidence (p : Entry) : bool :=
  no_error p &&
  match p with
  | Predicted q => truthy (p_confidence q)
  | Failed _ _ => false
  end.

(** [p.confidence || 0] *)
Definition confidence_or_0 (p : Entry) : number :=
  match p with
  | Predicted q => or_else (p_confidence q) (of_Z 0)
  | Failed _ _ => of_Z 0
  end.

Section Service.

(** [Math.pow] is implementation-approximated by the language definition,
    so the service is parameterised by it. *)
Variable Math_pow : number -> number -> number.

Variable w : World.

Definition calculateStandardDeviation (values : list number) : number :=
  let avg := div (sum values) (length_of values) in
  let squareDiffs := map (fun value => Math_pow (sub value avg) (of_Z 2)) values in
  let avgSquareDiff := div (sum squareDiffs) (length_of squareDiffs) in
  sqrt avgSquareDiff.

Definition analyzeSentiment (newsItems : list NewsItem) : Sentiment :=
  let sentiments := map item_sentiment newsItems in
  {| avgSentiment :=
       or_else (div (sum sentiments) (length_of sentiments)) (of_Z 0);
     sentimentVolatility := calculateStandardDeviation sentiments;
     positiveNewsRatio :=
       or_else (div (length_of (filter (fun s => gt s (lit 1 10)) sentiments))
                    (length_of sentiments)) (of_Z 0);
     negativeNewsRatio :=
       or_else (div (length_of (filter (fun s => lt s (SFopp (lit 1 10))) sentiments))
                    (length_of sentiments)) (of_Z 0);
     newsVolume := length_of newsItems |}.

(** The [RangeError] of [toISOString] carries the message of V8. *)
Definition fetchGuardianNews (hours : number) : M (list NewsItem) :=
  match GUARDIAN_KEY w with
  | None | Some EmptyString => throw (JsError "Missing Guardian API key")
  | Some _ =>
      now <- Date_now w ;;
      if negb (is_date (from_date_value now hours)) then
        throw (JsError "Invalid time value")
      else
      res <- fetch w hours ;;
      let '(status, body) := res in
      if negb (ok status) then
        throw (JsError ("Guardian API error: " ++ string_of_Z status))
      else
        results <- json_results body ;;
        ret (map to_item results)
  end.

Definition generateMockTechnicalData (symbol : string) : M Technical :=
  r1 <- Math_random w ;;
  let basePrice := add (mul r1 (of_Z 200)) (of_Z 50) in
  r2 <- Math_random w ;;
  r3 <- Math_random w ;;
  r4 <- Math_random w ;;
  r5 <- Math_random w ;;
  r6 <- Math_random w ;;
  r7 <- Math_random w ;;
  r8 <- Math_random w ;;
  r9 <- Math_random w ;;
  ret {| currentPrice := basePrice;
         priceChange1d := mul (sub r2 (lit 5 10)) (of_Z 10);
         volumeRatio := add (mul r3 (of_Z 2)) (lit 5 10);
         rsi := mul r4 (of_Z 100);
         macd := mul (sub r5 (lit 5 10)) (of_Z 2);
         bbPosition := r6;
         sma20Ratio := add (mul r7 (lit 2 10)) (lit 9 10);
         sma50Ratio := add (mul r8 (lit 2 10)) (lit 9 10);
         volatility := add (mul r9 (of_Z 50)) (of_Z 10) |}.

(** Returns [None] for [null]. *)
Definition getTechnicalIndicators (symbol : string) : M (option Technical) :=
  try_catch
    (mockData <- generateMockTechnicalData symbol ;;
     ret (Some mockData))
    (fun error =>
       console_error ("Error fetching technical data for " ++ symbol ++ ":") error ;;;
       ret None).

Definition predictStock (symbol : string) : M Prediction :=
  try_catch
    (news <- fetchGuardianNews (of_Z 24) ;;
     let sentimentData := analyzeSentiment news in
     techData <- getTechnicalIndicators symbol ;;
     match techData with
     | None => throw (JsError ("Could not fetch technical data for " ++ symbol))
     | Some techData =>
         let prediction := makeSimplePrediction sentimentData techData in
         timestamp <- now_iso w ;;
         ret {| symbol := symbol;
                prediction := action prediction;
                p_confidence := confidence prediction;
                p_reasoning := reasoning prediction;
                p_currentPrice := currentPrice techData;
                technicalIndicators :=
                  {| ti_rsi := rsi techData;
                     ti_macd := macd techData;
                     ti_volatility := volatility techData;
                     ti_priceChange1d := priceChange1d techData |};
                sentimentAnalysis := sentimentData;
                timestamp := timestamp |}
     end)
    (fun error =>
       console_error ("Error predicting " ++ symbol ++ ":") error ;;;
       throw error).

(** The [for] loop of [predictPortfolio], started with the array
    [predictions] built so far. *)
Fixpoint predictPortfolio_from (predictions : list Entry) (symbols : list string)
  : M (list Entry) :=
  match symbols with
  | [] => ret predictions
  | symbol :: rest =>
      entry <-
        try_catch
          (prediction <- predictStock symbol ;;
           ret (Predicted prediction))
          (fun error =>
             ret (Failed symbol ("Failed to predict: " ++ message_of error))) ;;
      predictPortfolio_from (predictions ++ [entry]) rest
  end.

Definition predictPortfolio (symbols : list string) : M (list Entry) :=
  predictPortfolio_from [] symbols.

(** The summary object built by [GET]. *)
Definition summarize (symbols : list string) (predictions : list Entry)
  (timestamp : string) : Summary :=
  {| totalSymbols := length_of symbols;
     buySignals := length_of (filter (signals BUY) predictions);
     sellSignals := length_of (filter (signals SELL) predictions);
     holdSignals := length_of (filter (signals HOLD) predictions);
     avgConfidence :=
       or_else
         (div (fold_left (fun acc p => add acc (confidence_or_0 p))
                 (filter has_confidence predictions) (of_Z 0))
              (length_of (filter has_confidence predictions)))
         (of_Z 0);
     s_timestamp := timestamp |}.

Definition GET (req : Request) : M HttpResponse :=
  try_catch
    (let symbols :=
       match symbols_param req with
       | Some s => split_comma s
       | None => default_symbols
       end in
     let hours :=
       parseInt10
         (match hours_param req with
          | None | Some EmptyString => "24"
          | Some s => s
          end) in
     predictions <- predictPortfolio symbols ;;
     timestamp <- now_iso w ;;
     ret (Ok200 predictions (summarize symbols predictions timestamp)
            disclaimer_text))
    (fun error =>
       console_error "Stock prediction error:" error ;;;
       ret (Err500 "Failed to generate predictions" (message_of error))).

End Service.

(** ** The decision fuser as section 4.3 words it

    The steps of the specification, carried out in exact rational
    arithmetic.  The inputs are the numbers handed to the fuser and the
    thresholds are the numbers their decimals denote, compared as numbers
    are (a comparison with NaN is false). *)

Module Spec.

Local Open Scope Q_scope.

Definition sign (q : Q) : Q :=
  match q ?= 0 with
  | Gt => 1
  | Eq => 0
  | Lt => -1
  end.

(** Steps 1 to 6: the score. *)
Definition fuse_score (sentiment : Sentiment) (technical : Technical) : Q :=
  let score := 0 in
  let score :=
    if gt (avgSentiment sentiment) (lit 2 10) then score + 2
    else if lt (avgSentiment sentiment) (SFopp (lit 2 10)) then score - 2
    else score in
  let score :=
    if lt (rsi technical) (of_Z 30) then score + 2
    else if gt (rsi technical) (of_Z 70) then score - 2
    else score in
  let score :=
    if gt (macd technical) (of_Z 0) then score + 1 else score - 1 in
  let score :=
    if gt (priceChange1d technical) (of_Z 2) then score + 1
    else if lt (priceChange1d technical) (SFopp (of_Z 2)) then score - 1
    else score in
  if gt (volumeRatio technical) (lit 15 10) then score + sign score * (1 # 2)
  else score.

(** Steps 2 to 6: the reasons, in the order of the steps. *)
Definition fuse_reasons (sentiment : Sentiment) (technical : Technical)
  : list string :=
  (if gt (avgSentiment sentiment) (lit 2 10) then ["Positive news sentiment"%string]
   else if lt (avgSentiment sentiment) (SFopp (lit 2 10)) then ["Negative news sentiment"%string]
   else [])
  ++ (if lt (rsi technical) (of_Z 30) then ["RSI indicates oversold condition"%string]
      else if gt (rsi technical) (of_Z 70) then ["RSI indicates overbought condition"%string]
      else [])
  ++ (if gt (macd technical) (of_Z 0) then ["MACD shows bullish momentum"%string]
      else ["MACD shows bearish momentum"%string])
  ++ (if gt (priceChange1d technical) (of_Z 2) then ["Strong recent price momentum"%string]
      else if lt (priceChange1d technical) (SFopp (of_Z 2)) then ["Weak recent price momentum"%string]
      else [])
  ++ (if gt (volumeRatio technical) (lit 15 10) then ["High volume confirms trend"%string]
      else []).

(** Step 7: the action. *)
Definition fuse_action (score : Q) : Action :=
  if Qle_bool 3 score then BUY
  else if Qle_bool score (-3) then SELL
  else HOLD.

(** Step 7: the confidence, before it is rounded. *)
Definition fuse_confidence (score : Q) : Q :=
  if Qle_bool 3 score then Qmin (9 # 10) ((6 # 10) + (score - 3) * (1 # 10))
  else if Qle_bool score (-3) then
    Qmin (9 # 10) ((6 # 10) + Qabs (score + 3) * (1 # 10))
  else (5 # 10) + Qabs score * (5 # 100).

(** Step 8: [k] hundredths is [x] rounded to 2 decimal places. *)
Definition rounded_2dp (x : Q) (k : Z) : Prop :=
  Qabs (100 * x - inject_Z k) <= 1 # 2.

(** The step of section 4.3 that appends a reason. *)
Definition step_of_reason (reason : string) : nat :=
  if String.eqb reason "Positive news sentiment" then 2
  else if String.eqb reason "Negative news sentiment" then 2
  else if String.eqb reason "RSI indicates oversold condition" then 3
  else if String.eqb reason "RSI indicates overbought condition" then 3
  else if String.eqb reason "MACD shows bullish momentum" then 4
  else if String.eqb reason "MACD shows bearish momentum" then 4
  else if String.eqb reason "Strong recent price momentum" then 5
  else if String.eqb reason "Weak recent price momentum" then 5
  else if String.eqb reason "High volume confirms trend" then 6
  else 0.

(** A list of reasons that follows the order of the steps. *)
Definition in_step_order (l : list string) : Prop :=
  StronglySorted (fun a b => (step_of_reason a < step_of_reason b)%nat) l.

End Spec.

(** ** Equality of numbers and a checker for roundings *)

Definition number_eqb (x y : number) : bool :=
  match x, y with
  | S754_nan, S754_nan => true
  | S754_zero a, S754_zero b => Bool.eqb a b
  | S754_infinity a, S754_infinity b => Bool.eqb a b
  | S754_finite a m e, S754_finite b n f =>
      Bool.eqb a b && Pos.eqb m n && Z.eqb e f
  | _, _ => false
  end.

Definition hundredths : list Z := map Z.of_nat (seq 0 101).

(** [c] is the number denoted by [k/100] for a [k] that is [x] rounded to
    2 decimal places. *)
Definition rounds_to (c : number) (x : Q) (k : Z) : bool :=
  number_eqb c (lit k 100) &&
  Qle_bool (Qabs (100 * x - inject_Z k)) (1 # 2).

Definition is_rounding (c : number) (x : Q) : bool :=
  existsb (rounds_to c x) hundredths.

(** What the rounded confidence of each action may be. *)
Definition confidence_in_range (a : Action) (c : number) : bool :=
  le (lit 5 10) c && le c (lit 9 10) &&
  match a with
  | HOLD => lt c (lit 65 100)
  | BUY | SELL => le (lit 6 10) c
  end.

(** ** Vocabulary of the service properties *)

Definition entry_symbol (e : Entry) : string :=
  match e with
  | Predicted p => symbol p
  | Failed s _ => s
  end.

(** The successful predictions of a portfolio, in order. *)
Fixpoint successes (entries : list Entry) : list Prediction :=
  match entries with
  | [] => []
  | Predicted p :: rest => p :: successes rest
  | Failed _ _ :: rest => successes rest
  end.

Definition is_action (a : Action) (p : Prediction) : bool :=
  match prediction p, a with
  | BUY, BUY | SELL, SELL | HOLD, HOLD => true
  | _, _ => false
  end.

(** The symbols that [GET] hands to [predictPortfolio]. *)
Definition requested_symbols (req : Request) : list string :=
  match symbols_param req with
  | Some s => split_comma s
  | None => default_symbols
  end.

(** [tr] after one more request for a window of [hours]. *)
Definition sent (hours : number) (tr : Trace) : Trace :=
  {| requests := requests tr ++ [hours];
     randoms := randoms tr;
     clock_reads := clock_reads tr;
     console := console tr |}.

(** An entry as the summary of [GET] expects it: a prediction has a
    confidence that counts, a marker has an error text. *)
Definition countable (e : Entry) : Prop :=
  match e with
  | Predicted p => truthy (p_confidence p) = true
  | Failed _ msg => String.eqb msg "" = false
  end.

(** The arithmetic mean of a list of numbers. *)
Definition mean (l : list number) : number := div (sum l) (length_of l).

(** [tr] after [k] more calls of [Math.random]. *)
Definition drawn (k : nat) (tr : Trace) : Trace :=
  {| requests := requests tr;
     randoms := k + randoms tr;
     clock_reads := clock_reads tr;
     console := console tr |}.

(** [tr] after one more reading of the clock. *)
Definition ticked (tr : Trace) : Trace :=
  {| requests := requests tr;
     randoms := randoms tr;
     clock_reads := S (clock_reads tr);
     console := console tr |}.

(** [tr] after one more line on the console. *)
Definition logged (label : string) (e : exn) (tr : Trace) : Trace :=
  {| requests := requests tr;
     randoms := randoms tr;
     clock_reads := clock_reads tr;
     console := (console tr ++ [(label, e)])%list |}.

(** The snapshot that [generateMockTechnicalData] builds from the random
    numbers [n], ..., [n + 8]. *)
Definition mock_technical (w : World) (n : nat) : Technical :=
  {| currentPrice := add (mul (random w n) (of_Z 200)) (of_Z 50);
     priceChange1d := mul (sub (random w (1 + n)) (lit 5 10)) (of_Z 10);
     volumeRatio := add (mul (random w (2 + n)) (of_Z 2)) (lit 5 10);
     rsi := mul (random w (3 + n)) (of_Z 100);
     macd := mul (sub (random w (4 + n)) (lit 5 10)) (of_Z 2);
     bbPosition := random w (5 + n);
     sma20Ratio := add (mul (random w (6 + n)) (lit 2 10)) (lit 9 10);
     sma50Ratio := add (mul (random w (7 + n)) (lit 2 10)) (lit 9 10);
     volatility := add (mul (random w (8 + n)) (of_Z 50)) (of_Z 10) |}.

Section Vocabulary.

Variable Math_pow : number -> number -> number.
Variable w : World.

Definition key_configured : bool :=
  match GUARDIAN_KEY w with
  | None | Some EmptyString => false
  | Some _ => true
  end.

(** What [fetchGuardianNews(24)] obtains when it is the call that sends
    request number [n], or that would send it if the key were there. *)
Definition news_attempt (n : nat) : Outcome (list Article) :=
  if key_configured then
    match network w n (of_Z 24) with
    | Rejects e => Throws e
    | Responds status body =>
        if ok status then
          match body with
          | JsonRejects e => Throws e
          | Json (Some results) => Returns results
          | Json None => Returns []
          end
        else Throws (JsError ("Guardian API error: " ++ string_of_Z status))
    end
  else Throws (JsError "Missing Guardian API key").

(** The entry recorded for [sym] when its news attempt is number [n]. *)
Definition entry_at (n : nat) (sym : string) (e : Entry) : Prop :=
  match news_attempt n, e with
  | Returns articles, Predicted p =>
      symbol p = sym /\
      sentimentAnalysis p = analyzeSentiment Math_pow (map to_item articles) /\
      exists technical : Technical,
        let d := makeSimplePrediction (sentimentAnalysis p) technical in
        prediction p = action d /\
        p_confidence p = confidence d /\
        p_reasoning p = reasoning d
  | Throws err, Failed s msg =>
      s = sym /\ msg = "Failed to predict: " ++ message_of err
  | _, _ => False
  end.

(** The entries recorded for [syms] when the first news attempt is number
    [n]. *)
Fixpoint entries_from (n : nat) (syms : list string) (entries : list Entry)
  : Prop :=
  match syms, entries with
  | [], [] => True
  | sym :: syms', e :: entries' =>
      entry_at n sym e /\ entries_from (S n) syms' entries'
  | _, _ => False
  end.

End Vocabulary.

(** ** Concrete inputs *)

(** The scenario of the specification: sentiment 0.3, RSI 25, MACD 0.5,
    price change 3, volume ratio 2.0. *)
Definition scenario_sentiment : Sentiment :=
  {| avgSentiment := lit 3 10;
     sentimentVolatility := of_Z 0;
     positiveNewsRatio := of_Z 1;
     negativeNewsRatio := of_Z 0;
     newsVolume := of_Z 1 |}.

Definition scenario_technical : Technical :=
  {| currentPrice := of_Z 100;
     priceChange1d := of_Z 3;
     volumeRatio := of_Z 2;
     rsi := of_Z 25;
     macd := lit 5 10;
     bbPosition := lit 5 10;
     sma20Ratio := of_Z 1;
     sma50Ratio := of_Z 1;
     volatility := of_Z 20 |}.

(** The same snapshot with MACD exactly 0, and with RSI exactly 30. *)
Definition flat_macd_technical : Technical :=
  {| currentPrice := of_Z 100;
     priceChange1d := of_Z 3;
     volumeRatio := of_Z 2;
     rsi := of_Z 25;
     macd := of_Z 0;
     bbPosition := lit 5 10;
     sma20Ratio := of_Z 1;
     sma50Ratio := of_Z 1;
     volatility := of_Z 20 |}.

Definition rsi_30_technical : Technical :=
  {| currentPrice := of_Z 100;
     priceChange1d := of_Z 3;
     volumeRatio := of_Z 2;
     rsi := of_Z 30;
     macd := lit 5 10;
     bbPosition := lit 5 10;
     sma20Ratio := of_Z 1;
     sma50Ratio := of_Z 1;
     volatility := of_Z 20 |}.

(** One admissible [Math.pow] for the exponents the service uses. *)
Definition pow_by_product (x y : number) : number := mul x x.

Definition one_article : Article :=
  {| webTitle := "Markets rise on strong profit growth";
     trailText := Some "Shares gain as earnings beat forecasts";
     webPublicationDate := "2024-01-01T09:00:00Z";
     webUrl := "https://www.theguardian.com/business/markets" |}.

(** A world in which the news source answers every request. *)
Definition online : World :=
  {| GUARDIAN_KEY := Some "test-key";
     network := fun _ _ => Responds 200 (Json (Some [one_article]));
     random := fun _ => lit 5 10;
     clock := fun _ => "2024-01-01T10:00:00.000Z";
     time_value := fun _ => of_Z 1704103200000;
     clock_sane := fun _ => eq_refl |}.

(** A world in which the news source fails the first request with 503
    and the second with 404, and answers every later one. *)
Definition outage : World :=
  {| GUARDIAN_KEY := Some "test-key";
     network := fun n _ =>
                  match n with
                  | 0%nat => Responds 503 (Json None)
                  | 1%nat => Responds 404 (Json None)
                  | _ => Responds 200 (Json (Some [one_article]))
                  end;
     random := fun _ => lit 5 10;
     clock := fun _ => "2024-01-01T10:00:00.000Z";
     time_value := fun _ => of_Z 1704103200000;
     clock_sane := fun _ => eq_refl |}.

(** A world in which the news source answers every request with 503. *)
Definition down : World :=
  {| GUARDIAN_KEY := Some "test-key";
     network := fun _ _ => Responds 503 (Json None);
     random := fun _ => lit 5 10;
     clock := fun _ => "2024-01-01T10:00:00.000Z";
     time_value := fun _ => of_Z 1704103200000;
     clock_sane := fun _ => eq_refl |}.

Definition two_symbols_48_hours : Request :=
  {| symbols_param := Some "AAPL,MSFT"; hours_param := Some "48" |}.


(** ** Three sentences of the specification, as they are worded *)

Section AsWorded.

Variable Math_pow : number -> number -> number.
Variable w : World.

(** The lookback window of a request: the [hours] parameter, 24 without. *)
Definition lookback (req : Request) : number :=
  parseInt10
    (match hours_param req with
     | None | Some EmptyString => "24"
     | Some s => s
     end).

(** Section 4.4: one news batch is fetched for the whole request, for the
    lookback window of the caller. *)
Definition fetches_one_shared_batch (req : Request) (tr : Trace) : Prop :=
  requests (snd (GET Math_pow w req tr))
  = (requests tr ++ [lookback req])%list.

(** Section 7: with the news source unavailable every symbol is still
    scored, on the summary of no news, and no error shows in the output. *)
Definition degrades_to_no_news (symbols : list string) (tr : Trace) : Prop :=
  exists entries : list Entry,
    fst (predictPortfolio Math_pow w symbols tr) = Returns entries /\
    Forall (fun entry =>
              exists p : Prediction,
                entry = Predicted p /\
                sentimentAnalysis p = analyzeSentiment Math_pow [])
      entries.



End AsWorded.

(** ** Vocabulary of the further properties *)

(** [{...technical, volumeRatio: v}] *)
Definition with_volumeRatio (v : number) (t : Technical) : Technical :=
  {| currentPrice := currentPrice t;
     priceChange1d := priceChange1d t;
     volumeRatio := v;
     rsi := rsi t;
     macd := macd t;
     bbPosition := bbPosition t;
     sma20Ratio := sma20Ratio t;
     sma50Ratio := sma50Ratio t;
     volatility := volatility t |}.

(** The confidences the fuser can return. *)
Definition confidence_levels : list number :=
  map (fun k => lit k 100) [50; 55; 57; 60; 63; 65; 70; 75; 80; 85; 90]%Z.

Definition number_in (x : number) (l : list number) : bool :=
  existsb (number_eqb x) l.

(** Whether the sentiment step, the RSI step and the price step append a
    reason. *)
Definition sentiment_fires (s : Sentiment) : bool :=
  gt (avgSentiment s) (lit 2 10) || lt (avgSentiment s) (SFopp (lit 2 10)).

Definition rsi_fires (t : Technical) : bool :=
  lt (rsi t) (of_Z 30) || gt (rsi t) (of_Z 70).

Definition price_fires (t : Technical) : bool :=
  gt (priceChange1d t) (of_Z 2) || lt (priceChange1d t) (SFopp (of_Z 2)).

(** How many of the three fire. *)
Definition fired_early (s : Sentiment) (t : Technical) : nat :=
  Nat.b2n (sentiment_fires s) + Nat.b2n (rsi_fires t) + Nat.b2n (price_fires t).

Definition is_macd_reason (reason : string) : bool :=
  String.eqb reason "MACD shows bullish momentum" ||
  String.eqb reason "MACD shows bearish momentum".

(** [x], or [d] when [x] is NaN. *)
Definition unless_nan (x d : number) : number := if is_nan x then d else x.

(** The readings with every NaN replaced by a reading that fires nothing:
    sentiment 0, RSI 50, MACD 0, price change 0, volume ratio 1. *)
Definition settle_sentiment (s : Sentiment) : Sentiment :=
  {| avgSentiment := unless_nan (avgSentiment s) (of_Z 0);
     sentimentVolatility := sentimentVolatility s;
     positiveNewsRatio := positiveNewsRatio s;
     negativeNewsRatio := negativeNewsRatio s;
     newsVolume := newsVolume s |}.

Definition settle_technical (t : Technical) : Technical :=
  {| currentPrice := currentPrice t;
     priceChange1d := unless_nan (priceChange1d t) (of_Z 0);
     volumeRatio := unless_nan (volumeRatio t) (of_Z 1);
     rsi := unless_nan (rsi t) (of_Z 50);
     macd := unless_nan (macd t) (of_Z 0);
     bbPosition := bbPosition t;
     sma20Ratio := sma20Ratio t;
     sma50Ratio := sma50Ratio t;
     volatility := volatility t |}.

(** The text in which [analyzeSentiment] looks for words. *)
Definition item_text (item : NewsItem) : string :=
  toLowerCase (title item ++ " " ++ description item).

(** How many of [words] occur in [text]. *)
Definition words_found (text : string) (words : list string) : Z :=
  Z.of_nat (List.length (filter (includes text) words)).

Definition clamp_5 (k : Z) : Z := Z.max (-5) (Z.min 5 k).

(** The integers [lo], [lo + 1], ..., [lo + n - 1]. *)
Definition Z_range (lo : Z) (n : nat) : list Z :=
  map (fun i => (lo + Z.of_nat i)%Z) (seq 0 n).

(** NaN, or a number whose sign is positive. *)
Definition positive_sign_or_nan (x : number) : Prop :=
  match x with
  | S754_nan => True
  | S754_zero s | S754_infinity s | S754_finite s _ _ => s = false
  end.

(** A text of characters below 128. *)
Definition is_ascii_text (s : string) : bool :=
  forallb (fun c => (nat_of_ascii c <? 128)%nat) (list_ascii_of_string s).

Definition upper_ascii (c : ascii) : ascii :=
  let n := nat_of_ascii c in
  if (97 <=? n)%nat && (n <=? 122)%nat then ascii_of_nat (n - 32) else c.

(** [s] with its letters a to z in capitals. *)
Fixpoint in_capitals (s : string) : string :=
  match s with
  | EmptyString => EmptyString
  | String c r => String (upper_ascii c) (in_capitals r)
  end.

(** [item] with its title and its description in capitals. *)
Definition shouted (item : NewsItem) : NewsItem :=
  {| title := in_capitals (title item);
     description := in_capitals (description item);
     publishedAt := publishedAt item;
     url := url item |}.

(** The symbols of the error markers of a portfolio, in order. *)
Fixpoint failed_symbols (entries : list Entry) : list string :=
  match entries with
  | [] => []
  | Predicted _ :: rest => failed_symbols rest
  | Failed sym _ :: rest => sym :: failed_symbols rest
  end.

(** The label of the console line that [predictStock] writes. *)
Definition predicting_label (sym : string) : string :=
  "Error predicting " ++ sym ++ ":".

(** The snapshot a client can rebuild from a prediction: the reported
    readings, and [unknown] for every reading that is not reported. *)
Definition reported_snapshot (p : Prediction) (unknown : number) : Technical :=
  {| currentPrice := p_currentPrice p;
     priceChange1d := ti_priceChange1d (technicalIndicators p);
     volumeRatio := unknown;
     rsi := ti_rsi (technicalIndicators p);
     macd := ti_macd (technicalIndicators p);
     bbPosition := unknown;
     sma20Ratio := unknown;
     sma50Ratio := unknown;
     volatility := ti_volatility (technicalIndicators p) |}.

(** The object literal returned by [predictStock]. *)
Definition prediction_from (sym : string) (sentimentData : Sentiment)
  (techData : Technical) (time : string) : Prediction :=
  {| symbol := sym;
     prediction := action (makeSimplePrediction sentimentData techData);
     p_confidence := confidence (makeSimplePrediction sentimentData techData);
     p_reasoning := reasoning (makeSimplePrediction sentimentData techData);
     p_currentPrice := currentPrice techData;
     technicalIndicators :=
       {| ti_rsi := rsi techData;
          ti_macd := macd techData;
          ti_volatility := volatility techData;
          ti_priceChange1d := priceChange1d techData |};
     sentimentAnalysis := sentimentData;
     timestamp := time |}.

Section NewsAnswer.

Variable w : World.

(** What [fetchGuardianNews(hours)] obtains from request number [n]. *)
Definition news_answer (hours : number) (n : nat) : Outcome (list Article) :=
  match network w n hours with
  | Rejects e => Throws e
  | Responds status body =>
      if ok status then
        match body with
        | JsonRejects e => Throws e
        | Json (Some results) => Returns results
        | Json None => Returns []
        end
      else Throws (JsError ("Guardian API error: " ++ string_of_Z status))
  end.

End NewsAnswer.

Definition has_comma (s : string) : bool :=
  existsb (Ascii.eqb ",") (list_ascii_of_string s).

(** ** POST *)

(** The body of a POST request: the properties [symbol] and [action] of
    the document, [None] when absent. *)
Record PostBody := {
  b_symbol : option string;
  b_action : option string
}.

Inductive PostResponse :=
  | PostPrediction (p : Prediction)
  | PostMessage (message : string) (timestamp : string)
  | PostError (error : string) (status : Z).

Section Post.

Variable Math_pow : number -> number -> number.
Variable w : World.

(** The [try] block of [POST], for a request whose [req.json()] gives
    [body]; [symbol] and [action] are read as strings.  What follows the
    block is not part of the model: an exception leaves the block. *)
Definition POST_try (body : Outcome PostBody) : M PostResponse :=
  body <- (fun tr => (body, tr)) ;;
  match b_symbol body with
  | None | Some EmptyString => ret (PostError "Symbol is required" 400)
  | Some symbol =>
      match b_action body with
      | Some action =>
          if String.eqb action "predict" then
            prediction <- predictStock Math_pow w symbol ;;
            ret (PostPrediction prediction)
          else if String.eqb action "retrain" then
            timestamp <- now_iso w ;;
            ret (PostMessage "Model retraining initiated" timestamp)
          else ret (PostError "Invalid action" 400)
      | None => ret (PostError "Invalid action" 400)
      end
  end.

End Post.

(** The symbol for which a POST body asks a prediction: the body is
    readable, its symbol is not empty and its action is "predict". *)
Definition wanted_prediction (body : Outcome PostBody) : option string :=
  match body with
  | Returns b =>
      match b_symbol b, b_action b with
      | Some (String c sym), Some action =>
          if String.eqb action "predict" then Some (String c sym) else None
      | _, _ => None
      end
  | Throws _ => None
  end.

(** ** Further concrete inputs *)

(** A world whose API key is the empty string. *)
Definition keyless : World :=
  {| GUARDIAN_KEY := Some "";
     network := fun _ _ => Responds 200 (Json (Some [one_article]));
     random := fun _ => lit 5 10;
     clock := fun _ => "2024-01-01T10:00:00.000Z";
     time_value := fun _ => of_Z 1704103200000;
     clock_sane := fun _ => eq_refl |}.

Definition headline_item : NewsItem :=
  {| title := "Profit growth at record"; description := "Strong gain";
     publishedAt := ""; url := "" |}.

(** The prediction for AAPL in the world [online], from a trace on which
    nothing has happened yet. *)
Definition aapl_prediction : Prediction :=
  prediction_from "AAPL"
    (analyzeSentiment pow_by_product [to_item one_article])
    (mock_technical online 0)
    (clock online 1).

(** * Properties *)

(** ** Numbers *)

Lemma number_eqb_eq (x y : number) : number_eqb x y = true -> x = y.
Proof.
  destruct x as [a|a| |a m e], y as [b|b| |b n f]; simpl; try discriminate.
  - intros H. apply Bool.eqb_prop in H. now subst.
  - intros H. apply Bool.eqb_prop in H. now subst.
  - reflexivity.
  - intros H. apply andb_prop in H. destruct H as [H He].
    apply andb_prop in H. destruct H as [Hs Hm].
    apply Bool.eqb_prop in Hs. apply Pos.eqb_eq in Hm. apply Z.eqb_eq in He.
    now subst.
Qed.

Lemma is_rounding_sound (c : number) (x : Q) :
  is_rounding c x = true ->
  exists k : Z, c = lit k 100 /\ Spec.rounded_2dp x k.
Proof.
  unfold is_rounding, rounds_to. intros H.
  apply existsb_exists in H. destruct H as [k [_ H]].
  apply andb_prop in H. destruct H as [Hc Hx].
  exists k. split.
  - now apply number_eqb_eq.
  - unfold Spec.rounded_2dp. now apply Qle_bool_iff.
Qed.

(** A zero is not greater than zero. *)
Lemma zero_not_gt_0 (x : number) : is_zero x = true -> gt x (of_Z 0) = false.
Proof. destruct x; simpl; try discriminate. reflexivity. Qed.

(** ** The decision fuser *)

Ltac unfold_fuser :=
  unfold makeSimplePrediction, locals_before_decision, step_volume, step_price,
    step_macd, step_rsi, step_sentiment, Spec.fuse_score, Spec.fuse_reasons.

(** The fuser looks at its inputs through eight comparisons only. *)
Ltac split_tests s t :=
  generalize (gt (avgSentiment s) (lit 2 10))
             (lt (avgSentiment s) (SFopp (lit 2 10)))
             (lt (rsi t) (of_Z 30)) (gt (rsi t) (of_Z 70))
             (gt (macd t) (of_Z 0))
             (gt (priceChange1d t) (of_Z 2))
             (lt (priceChange1d t) (SFopp (of_Z 2)))
             (gt (volumeRatio t) (lit 15 10));
  intros [] [] [] [] [] [] [] [].

(** On every input the binary64 computation of the fuser agrees with the
    exact computation of section 4.3: the score is the same rational, the
    action is the same, and the confidence is the exact confidence rounded
    to hundredths. *)
Lemma fuser_exact (s : Sentiment) (t : Technical) :
  let st := locals_before_decision s t in
  let r := makeSimplePrediction s t in
  let q := Spec.fuse_score s t in
  is_finite (score st) = true /\
  Qeq_bool (toQ (score st)) q = true /\
  action r = Spec.fuse_action q /\
  is_rounding (confidence r) (Spec.fuse_confidence q) = true /\
  confidence_in_range (action r) (confidence r) = true /\
  truthy (confidence r) = true.
Proof.
  intros st r q. subst st r q. unfold_fuser.
  split_tests s t; vm_compute; repeat split; reflexivity.
Qed.

Lemma fuser_reasons (s : Sentiment) (t : Technical) :
  reasons (locals_before_decision s t) = Spec.fuse_reasons s t.
Proof.
  unfold_fuser. unfold plus, minus, push, init.
  split_tests s t; reflexivity.
Qed.

Lemma reasoning_is_slice (s : Sentiment) (t : Technical) :
  reasoning (makeSimplePrediction s t) = firstn 3 (Spec.fuse_reasons s t).
Proof.
  rewrite <- fuser_reasons. unfold makeSimplePrediction.
  destruct (decide (score (locals_before_decision s t))). reflexivity.
Qed.

(** C1. For every sentiment summary and technical snapshot the fuser
    computes the score by the steps of section 4.3 and decides as step 7
    says: the score held by the program is exactly the rational that the
    steps give, the action is BUY from 3 up, SELL from -3 down and HOLD in
    between, and the confidence returned is the number denoted by k/100
    where k hundredths is the confidence formula of the chosen branch
    rounded to 2 decimal places.  On the scenario with average sentiment
    0.3, RSI 25, MACD 0.5, price change 3 and volume ratio 2.0 the score is
    6.5, the action is BUY and the confidence is 0.9. *)
Theorem C1_fuser_follows_section_4_3 (s : Sentiment) (t : Technical) :
  let st := locals_before_decision s t in
  let r := makeSimplePrediction s t in
  let q := Spec.fuse_score s t in
  (is_finite (score st) = true /\ toQ (score st) == q) /\
  action r = Spec.fuse_action q /\
  (exists k : Z,
      confidence r = lit k 100 /\
      Spec.rounded_2dp (Spec.fuse_confidence q) k) /\
  (avgSentiment s = lit 3 10 ->
   rsi t = of_Z 25 ->
   macd t = lit 5 10 ->
   priceChange1d t = of_Z 3 ->
   volumeRatio t = of_Z 2 ->
   q == 65 # 10 /\ score st = lit 65 10 /\
   action r = BUY /\ confidence r = lit 9 10).
Proof.
  intros st r q.
  destruct (fuser_exact s t) as (Hfin & Hq & Ha & Hc & _).
  fold st r q in Hfin, Hq, Ha, Hc.
  split; [split | split; [| split]].
  - exact Hfin.
  - now apply Qeq_bool_iff.
  - exact Ha.
  - now apply is_rounding_sound.
  - intros H1 H2 H3 H4 H5. subst st r q. unfold_fuser.
    rewrite H1, H2, H3, H4, H5. vm_compute. repeat split.
Qed.

(** C10. The confidence returned by the fuser always lies between 0.5 and
    0.9: a HOLD has a confidence below 0.5 + 3 * 0.05, a BUY or a SELL has
    one of at least 0.6, and no confidence exceeds the cap of 0.9. *)
Theorem C10_confidence_between_half_and_cap (s : Sentiment) (t : Technical) :
  let r := makeSimplePrediction s t in
  le (lit 5 10) (confidence r) = true /\
  le (confidence r) (lit 9 10) = true /\
  match action r with
  | HOLD => lt (confidence r) (lit 65 100) = true
  | BUY | SELL => le (lit 6 10) (confidence r) = true
  end.
Proof.
  intros r.
  destruct (fuser_exact s t) as (_ & _ & _ & _ & Hr & _).
  fold r in Hr. unfold confidence_in_range in Hr.
  apply andb_prop in Hr. destruct Hr as [Hr Ha].
  apply andb_prop in Hr. destruct Hr as [Hlo Hhi].
  repeat split; try assumption.
  destruct (action r); exact Ha.
Qed.

(** C6. When MACD is exactly zero the fuser takes the bearish branch:
    the MACD step subtracts 1 from the score and appends "MACD shows
    bearish momentum", whatever the sentiment and the other readings;
    the bullish reason is not given. *)
Theorem C6_macd_zero_is_bearish (s : Sentiment) (t : Technical) :
  is_zero (macd t) = true ->
  let before := step_rsi t (step_sentiment s init) in
  let after := step_macd t before in
  score after = sub (score before) (of_Z 1) /\
  toQ (score after) == toQ (score before) - 1 /\
  reasons after = (reasons before ++ ["MACD shows bearish momentum"])%list /\
  In "MACD shows bearish momentum" (reasoning (makeSimplePrediction s t)) /\
  ~ In "MACD shows bullish momentum" (reasoning (makeSimplePrediction s t)).
Proof.
  intros Hz before after. subst before after.
  pose proof (zero_not_gt_0 _ Hz) as Hgt.
  rewrite reasoning_is_slice. unfold Spec.fuse_reasons.
  unfold step_macd. rewrite Hgt.
  split; [reflexivity |]. split; [| split; [reflexivity |]].
  - unfold step_rsi, step_sentiment.
    generalize (gt (avgSentiment s) (lit 2 10))
               (lt (avgSentiment s) (SFopp (lit 2 10)))
               (lt (rsi t) (of_Z 30)) (gt (rsi t) (of_Z 70)).
    intros [] [] [] []; vm_compute; reflexivity.
  - split_tests s t; simpl; (split; [auto 6 | intuition discriminate]).
Qed.

(** C7. When RSI is exactly 30 or exactly 70 neither RSI branch is taken:
    the RSI step leaves the score and the reasons as they are, and neither
    RSI reason is given. *)
Theorem C7_rsi_bounds_are_strict (s : Sentiment) (t : Technical) :
  rsi t = of_Z 30 \/ rsi t = of_Z 70 ->
  (forall st : Locals, step_rsi t st = st) /\
  ~ In "RSI indicates oversold condition" (reasoning (makeSimplePrediction s t)) /\
  ~ In "RSI indicates overbought condition" (reasoning (makeSimplePrediction s t)).
Proof.
  intros H.
  assert (Hlt : lt (rsi t) (of_Z 30) = false /\ gt (rsi t) (of_Z 70) = false)
    by (destruct H as [H|H]; rewrite H; split; vm_compute; reflexivity).
  destruct Hlt as [Hlt Hgt].
  rewrite reasoning_is_slice. unfold Spec.fuse_reasons. 
  split.
  - intros st. unfold step_rsi. rewrite Hlt, Hgt. reflexivity.
  - rewrite Hlt, Hgt.
    split_tests s t; simpl; (split; intuition discriminate).
Qed.

(** C9. The reasoning returned by the fuser has at most 3 entries and is
    the first 3 of the reasons in the order in which the steps of section
    4.3 append them (sentiment, RSI, MACD, price momentum, volume); the
    list is never reordered. *)
Theorem C9_reasoning_first_three (s : Sentiment) (t : Technical) :
  let st := locals_before_decision s t in
  let r := makeSimplePrediction s t in
  reasons st = Spec.fuse_reasons s t /\
  Spec.in_step_order (reasons st) /\
  reasoning r = firstn 3 (reasons st) /\
  (List.length (reasoning r) <= 3)%nat.
Proof.
  intros st r. subst st r.
  assert (Hslice : reasoning (makeSimplePrediction s t)
                   = firstn 3 (reasons (locals_before_decision s t))).
  { unfold makeSimplePrediction.
    destruct (decide (score (locals_before_decision s t))). reflexivity. }
  split; [apply fuser_reasons |]. split; [| split].
  - rewrite fuser_reasons. unfold Spec.fuse_reasons, Spec.in_step_order.
    split_tests s t; simpl; repeat constructor.
  - exact Hslice.
  - rewrite Hslice. apply firstn_le_length.
Qed.

(** The second scenario of the specification: neutral sentiment, RSI 50,
    MACD -0.1, no price change, volume ratio 1.0 gives HOLD at 0.55. *)
Example quiet_market_holds :
  let s := {| avgSentiment := of_Z 0; sentimentVolatility := of_Z 0;
              positiveNewsRatio := of_Z 0; negativeNewsRatio := of_Z 0;
              newsVolume := of_Z 0 |} in
  let t := {| currentPrice := of_Z 100; priceChange1d := of_Z 0;
              volumeRatio := of_Z 1; rsi := of_Z 50; macd := SFopp (lit 1 10);
              bbPosition := lit 5 10; sma20Ratio := of_Z 1;
              sma50Ratio := of_Z 1; volatility := of_Z 20 |} in
  score (locals_before_decision s t) = of_Z (-1) /\
  action (makeSimplePrediction s t) = HOLD /\
  confidence (makeSimplePrediction s t) = lit 55 100.
Proof. vm_compute. repeat split. Qed.

(** The two scores whose exact confidence lies halfway between two
    hundredths: 0.5 + 1.5 * 0.05 comes out as 0.57 and 0.5 + 2.5 * 0.05 as
    0.63. *)
Example confidence_at_the_ties :
  round_confidence (snd (decide (lit 15 10))) = lit 57 100 /\
  round_confidence (snd (decide (lit 25 10))) = lit 63 100.
Proof. vm_compute. split; reflexivity. Qed.

(** Words are looked for as substrings: "supply" counts as "up". *)
Example substring_match :
  item_sentiment {| title := "Supply chains"; description := "";
                    publishedAt := ""; url := "" |} = lit 2 10 /\
  item_sentiment (to_item one_article) = of_Z 1.
Proof. vm_compute. split; reflexivity. Qed.

(** ** Runs of the service *)

Section ServiceProperties.

Variable Math_pow : number -> number -> number.
Variable w : World.


Lemma fetchGuardianNews_24 (tr : Trace) :
  fetchGuardianNews w (of_Z 24) tr =
  (match news_attempt w (List.length (requests tr)) with
   | Returns articles => Returns (map to_item articles)
   | Throws e => Throws e
   end,
   if key_configured w then sent (of_Z 24) (ticked tr) else tr).
Proof.
  unfold fetchGuardianNews, news_attempt, key_configured.
  destruct (GUARDIAN_KEY w) as [[|c k]|]; try reflexivity.
  unfold bind at 1. cbv beta iota delta [Date_now].
  rewrite (clock_sane w (clock_reads tr)). cbn [negb].
  unfold bind, fetch, sent, ticked. cbn [requests].
  destruct (network w (List.length (requests tr)) (of_Z 24)) as [e|status body];
    try reflexivity.
  destruct (ok status); cbn [negb]; try reflexivity.
  destruct body as [e|[results|]]; reflexivity.
Qed.

Lemma generateMockTechnicalData_run (sym : string) (tr : Trace) :
  generateMockTechnicalData w sym tr
  = (Returns (mock_technical w (randoms tr)), drawn 9 tr).
Proof. reflexivity. Qed.

Lemma getTechnicalIndicators_run (sym : string) (tr : Trace) :
  getTechnicalIndicators w sym tr
  = (Returns (Some (mock_technical w (randoms tr))), drawn 9 tr).
Proof.
  unfold getTechnicalIndicators, try_catch, bind.
  rewrite generateMockTechnicalData_run. reflexivity.
Qed.

(** [predictStock] either returns a prediction made from the news batch of
    its own request, or throws what the news attempt threw. *)
Lemma predictStock_cases (sym : string) (tr : Trace) :
  exists tr',
    requests tr' = (if key_configured w then (requests tr ++ [of_Z 24])%list
                    else requests tr) /\
    ((exists p, predictStock Math_pow w sym tr = (Returns p, tr') /\
                entry_at Math_pow w (List.length (requests tr)) sym (Predicted p)) \/
     (exists e, predictStock Math_pow w sym tr = (Throws e, tr') /\
                news_attempt w (List.length (requests tr)) = Throws e)).
Proof.
  unfold predictStock, try_catch, bind.
  rewrite fetchGuardianNews_24. unfold entry_at.
  destruct (news_attempt w (List.length (requests tr))) as [articles|e].
  - rewrite getTechnicalIndicators_run.
    cbv beta iota delta [now_iso ret].
    eexists. split; [| left; eexists; split; [reflexivity |]].
    + cbv beta iota delta [requests drawn].
      destruct (key_configured w); reflexivity.
    + cbv beta iota zeta delta [symbol sentimentAnalysis prediction p_confidence p_reasoning].
      split; [reflexivity |]. split; [reflexivity |].
      eexists. repeat split.
  - cbv beta iota delta [console_error throw].
    eexists. split; [| right; eexists; split; reflexivity].
    cbv beta iota delta [requests].
    destruct (key_configured w); reflexivity.
Qed.

Lemma news_attempt_without_key (n m : nat) :
  key_configured w = false -> news_attempt w n = news_attempt w m.
Proof. unfold news_attempt. intros H. rewrite H. reflexivity. Qed.

Lemma entries_from_without_key (syms : list string) :
  key_configured w = false ->
  forall (n m : nat) (entries : list Entry),
    entries_from Math_pow w n syms entries ->
    entries_from Math_pow w m syms entries.
Proof.
  intros Hkey. induction syms as [|sym syms IH]; intros n m [|e entries];
    simpl; try tauto.
  intros [He Hrest]. split.
  - unfold entry_at in *. now rewrite (news_attempt_without_key m n Hkey).
  - now apply (IH (S n)).
Qed.

(** The loop of [predictPortfolio] never throws: it appends one entry for
    each symbol, decided by the news attempt of that symbol alone. *)
Lemma predictPortfolio_from_run (syms : list string) :
  forall (acc : list Entry) (tr : Trace),
  exists entries tr',
    predictPortfolio_from Math_pow w acc syms tr
    = (Returns (acc ++ entries)%list, tr') /\
    entries_from Math_pow w (List.length (requests tr)) syms entries /\
    List.length (requests tr')
    = (List.length (requests tr)
       + (if key_configured w then List.length syms else 0))%nat.
Proof.
  induction syms as [|sym syms IH]; intros acc tr.
  - exists [], tr. simpl. rewrite app_nil_r. unfold ret.
    repeat split. destruct (key_configured w); lia.
  - assert (Hstep : forall (e : Entry) (tr1 : Trace),
               requests tr1 = (if key_configured w
                               then (requests tr ++ [of_Z 24])%list
                               else requests tr) ->
               entry_at Math_pow w (List.length (requests tr)) sym e ->
               exists entries tr',
                 predictPortfolio_from Math_pow w (acc ++ [e])%list syms tr1
                 = (Returns (acc ++ entries)%list, tr') /\
                 entries_from Math_pow w (List.length (requests tr))
                   (sym :: syms) entries /\
                 List.length (requests tr')
                 = (List.length (requests tr)
                    + (if key_configured w then List.length (sym :: syms)
                       else 0))%nat).
    { intros e tr1 Hreq Hentry.
      destruct (IH (acc ++ [e])%list tr1) as (entries & tr' & Hloop & Hfrom & Hlen).
      exists (e :: entries), tr'.
      rewrite Hloop, <- app_assoc. split; [reflexivity |].
      rewrite Hreq in Hfrom, Hlen. cbn [entries_from].
      destruct (key_configured w) eqn:Hkey.
      - rewrite length_app in Hfrom, Hlen. simpl in Hfrom, Hlen.
        rewrite Nat.add_1_r in Hfrom.
        repeat split; try assumption. simpl. lia.
      - repeat split; try assumption.
        now apply (entries_from_without_key syms Hkey
                     (List.length (requests tr))). }
    cbn [predictPortfolio_from]. unfold bind at 1. unfold try_catch, bind.
    destruct (predictStock_cases sym tr)
      as (tr1 & Hreq & [(p & Hrun & Hentry) | (e & Hrun & Hatt)]);
      rewrite Hrun; cbv beta iota delta [ret].
    + now apply Hstep.
    + apply Hstep; [exact Hreq |].
      unfold entry_at. rewrite Hatt. split; reflexivity.
Qed.

Lemma entries_from_symbols (syms : list string) :
  forall (n : nat) (entries : list Entry),
    entries_from Math_pow w n syms entries ->
    map entry_symbol entries = syms.
Proof.
  induction syms as [|sym syms IH]; intros n [|e entries]; simpl; try tauto.
  intros [He Hrest]. f_equal.
  - unfold entry_at in He.
    destruct (news_attempt w n), e; simpl; tauto.
  - now apply (IH (S n)).
Qed.

Lemma entries_from_countable (syms : list string) :
  forall (n : nat) (entries : list Entry),
    entries_from Math_pow w n syms entries ->
    Forall countable entries.
Proof.
  induction syms as [|sym syms IH]; intros n [|e entries]; simpl; try tauto.
  - constructor.
  - intros [He Hrest]. constructor; [| now apply (IH (S n))].
    unfold entry_at in He.
    destruct (news_attempt w n), e; simpl; try tauto.
    + destruct He as (_ & _ & technical & _ & Hc & _). rewrite Hc.
      apply fuser_exact.
    + destruct He as [_ ->]. reflexivity.
Qed.

Lemma entries_from_nth (syms : list string) :
  forall (n i : nat) (entries : list Entry) (e : Entry),
    entries_from Math_pow w n syms entries ->
    nth_error entries i = Some e ->
    exists sym, nth_error syms i = Some sym /\ entry_at Math_pow w (n + i) sym e.
Proof.
  induction syms as [|sym syms IH]; intros n i [|e0 entries] e; simpl; try tauto.
  - destruct i; discriminate.
  - intros [He Hrest] Hnth. destruct i as [|i]; simpl in Hnth.
    + injection Hnth as <-. exists sym. rewrite Nat.add_0_r. now split.
    + destruct (IH (S n) i entries e Hrest Hnth) as (sym' & Hs & Hat).
      exists sym'. split; [exact Hs |].
      now replace (n + S i)%nat with (S n + i)%nat by lia.
Qed.

Lemma GET_run (req : Request) (tr : Trace) :
  exists entries tr',
    predictPortfolio Math_pow w (requested_symbols req) tr = (Returns entries, tr') /\
    GET Math_pow w req tr
    = (Returns (Ok200 entries
                  (summarize (requested_symbols req) entries
                     (clock w (clock_reads tr')))
                  disclaimer_text),
       ticked tr').
Proof.
  unfold GET, predictPortfolio, try_catch, bind. fold (requested_symbols req).
  destruct (predictPortfolio_from_run (requested_symbols req) [] tr)
    as (entries & tr' & Hrun & _).
  exists entries, tr'. rewrite Hrun. split; reflexivity.
Qed.

Lemma filter_signals (a : Action) (entries : list Entry) :
  Forall countable entries ->
  filter (signals a) entries
  = map Predicted (filter (is_action a) (successes entries)).
Proof.
  induction 1 as [|e entries He _ IH]; [reflexivity |].
  destruct e as [p|s msg]; cbn [successes filter].
  - assert (Hs : signals a (Predicted p) = is_action a p) by reflexivity.
    rewrite Hs. destruct (is_action a p); cbn [map]; now rewrite IH.
  - assert (Hs : signals a (Failed s msg) = false)
      by (unfold signals, no_error; simpl in He; rewrite He; reflexivity).
    rewrite Hs. exact IH.
Qed.

Lemma filter_has_confidence (entries : list Entry) :
  Forall countable entries ->
  filter has_confidence entries = map Predicted (successes entries).
Proof.
  induction 1 as [|e entries He _ IH]; [reflexivity |].
  destruct e as [p|s msg]; cbn [successes filter].
  - assert (Hs : has_confidence (Predicted p) = true)
      by (unfold has_confidence, no_error; simpl in He; rewrite He; reflexivity).
    rewrite Hs. cbn [map]. now rewrite IH.
  - assert (Hs : has_confidence (Failed s msg) = false)
      by (unfold has_confidence, no_error; simpl in He; rewrite He; reflexivity).
    rewrite Hs. exact IH.
Qed.

Lemma fold_confidence (entries : list Entry) :
  Forall countable entries ->
  forall acc : number,
    fold_left (fun acc p => add acc (confidence_or_0 p))
      (map Predicted (successes entries)) acc
    = fold_left add (map p_confidence (successes entries)) acc.
Proof.
  induction 1 as [|e entries He _ IH]; intros acc; [reflexivity |].
  destruct e as [p|s msg]; cbn [successes map fold_left].
  - assert (Hs : confidence_or_0 (Predicted p) = p_confidence p)
      by (unfold confidence_or_0, or_else; simpl in He; rewrite He; reflexivity).
    rewrite Hs. apply IH.
  - apply IH.
Qed.

Lemma length_of_map {A B : Type} (f : A -> B) (l : list A) :
  length_of (map f l) = length_of l.
Proof. unfold length_of. now rewrite length_map. Qed.

Lemma split_comma_not_empty (s : string) : split_comma s <> [].
Proof.
  induction s as [|c s IH]; simpl; [discriminate |].
  destruct (split_comma s); [discriminate |].
  destruct (Ascii.eqb c ","); discriminate.
Qed.

End ServiceProperties.

(** ** The service *)

Section ServiceClaims.

Variable Math_pow : number -> number -> number.
Variable w : World.

(** C2. On an empty sequence of news items [analyzeSentiment] gives 0 for
    the average sentiment, for both ratios and for the news volume, but the
    sentiment volatility is NaN: [calculateStandardDeviation] divides 0 by
    0 and, unlike the three quotients beside it, is not followed by the
    fallback to 0. *)
Theorem C2_empty_news_volatility_is_NaN :
  analyzeSentiment Math_pow []
  = {| avgSentiment := of_Z 0;
       sentimentVolatility := NaN;
       positiveNewsRatio := of_Z 0;
       negativeNewsRatio := of_Z 0;
       newsVolume := of_Z 0 |}.
Proof. reflexivity. Qed.

(** C3, as the code has it.  For every request the news is fetched once
    for each requested symbol, by the prediction of that symbol: with the
    API key configured the handler sends as many news requests as there are
    symbols (none without the key), and the sentiment summary of the i-th
    prediction is computed from the batch answered to the i-th of them. *)
Theorem C3_news_fetched_for_each_symbol (req : Request) (tr : Trace) :
  exists predictions summary tr',
    GET Math_pow w req tr
    = (Returns (Ok200 predictions summary disclaimer_text), tr') /\
    List.length (requests tr')
    = (List.length (requests tr)
       + (if key_configured w then List.length (requested_symbols req)
          else 0))%nat /\
    forall (i : nat) (p : Prediction),
      nth_error predictions i = Some (Predicted p) ->
      exists articles : list Article,
        news_attempt w (List.length (requests tr) + i) = Returns articles /\
        sentimentAnalysis p = analyzeSentiment Math_pow (map to_item articles).
Proof.
  destruct (GET_run Math_pow w req tr) as (entries & tr' & Hrun & Hget).
  unfold predictPortfolio in Hrun.
  destruct (predictPortfolio_from_run Math_pow w (requested_symbols req) [] tr)
    as (entries' & tr'' & Hrun' & Hfrom & Hlen).
  rewrite Hrun in Hrun'. injection Hrun' as -> ->.
  eexists _, _, _. split; [exact Hget |]. split; [exact Hlen |].
  intros i p Hnth.
  destruct (entries_from_nth Math_pow w _ _ i _ _ Hfrom Hnth) as (sym & _ & Hat).
  unfold entry_at in Hat.
  destruct (news_attempt w (List.length (requests tr) + i)) as [articles|e];
    [| contradiction].
  exists articles. split; [reflexivity |]. apply Hat.
Qed.

(** C4, as the code has it.  When the news attempts of a request all fail,
    no symbol is scored: the portfolio still returns one entry for each
    requested symbol, in input order, and the entry of a symbol is its
    marker, whose error text carries the message of the failure of that
    symbol's own news attempt. *)
Theorem C4_news_failure_fails_every_symbol (symbols : list string) (tr : Trace) :
  (forall i : nat,
      (i < List.length symbols)%nat ->
      exists e : exn,
        news_attempt w (List.length (requests tr) + i) = Throws e) ->
  exists entries tr',
    predictPortfolio Math_pow w symbols tr = (Returns entries, tr') /\
    successes entries = [] /\
    List.length entries = List.length symbols /\
    forall (i : nat) (sym : string),
      nth_error symbols i = Some sym ->
      exists e : exn,
        news_attempt w (List.length (requests tr) + i) = Throws e /\
        nth_error entries i
        = Some (Failed sym ("Failed to predict: " ++ message_of e)).
Proof.
  intros Hdown. unfold predictPortfolio.
  destruct (predictPortfolio_from_run Math_pow w symbols [] tr)
    as (entries & tr' & Hrun & Hfrom & _).
  exists entries, tr'. split; [exact Hrun |].
  clear Hrun. revert entries Hfrom Hdown.
  generalize (List.length (requests tr)) as n.
  induction symbols as [|sym symbols IH]; intros n [|e entries]; simpl;
    try tauto.
  - intros _ _. repeat split. intros [|i] s0 H; discriminate H.
  - intros [Hat Hrest] Hdown.
    destruct (IH (S n) entries Hrest) as (Hs & Hlen & Hnth).
    { intros i Hi. destruct (Hdown (S i)) as [err Herr]; [lia |].
      exists err. now replace (S n + i)%nat with (n + S i)%nat by lia. }
    unfold entry_at in Hat. destruct (Hdown 0%nat) as [err Herr]; [lia |].
    rewrite Nat.add_0_r in Herr. rewrite Herr in Hat.
    destruct e as [p|s0 msg]; [contradiction |].
    destruct Hat as [-> ->].
    split; [exact Hs |]. split; [now rewrite Hlen |].
    intros [|i] s1 Hsym; simpl in Hsym.
    + injection Hsym as <-. exists err. rewrite Nat.add_0_r. now split.
    + destruct (Hnth i s1 Hsym) as (e1 & He1 & Hentry).
      exists e1. split; [| exact Hentry].
      now replace (n + S i)%nat with (S n + i)%nat by lia.
Qed.

(** C5. A failing symbol does not abort the others: the response carries
    one entry for each requested symbol, in input order, each decided by
    the news attempt of its own symbol (a prediction when it succeeds, the
    marker of the symbol when it fails); [totalSymbols] is the number of
    symbols requested, the three counts are taken over the successful
    predictions, and [avgConfidence] is the mean of their confidences, 0
    when there is none. *)
Theorem C5_failures_are_isolated (req : Request) (tr : Trace) :
  exists predictions summary tr',
    GET Math_pow w req tr
    = (Returns (Ok200 predictions summary disclaimer_text), tr') /\
    let symbols := requested_symbols req in
    let confidences := map p_confidence (successes predictions) in
    map entry_symbol predictions = symbols /\
    entries_from Math_pow w (List.length (requests tr)) symbols predictions /\
    totalSymbols summary = length_of symbols /\
    buySignals summary
    = length_of (filter (is_action BUY) (successes predictions)) /\
    sellSignals summary
    = length_of (filter (is_action SELL) (successes predictions)) /\
    holdSignals summary
    = length_of (filter (is_action HOLD) (successes predictions)) /\
    avgConfidence summary
    = match confidences with
      | [] => of_Z 0
      | _ :: _ => or_else (mean confidences) (of_Z 0)
      end.
Proof.
  destruct (GET_run Math_pow w req tr) as (entries & tr' & Hrun & Hget).
  unfold predictPortfolio in Hrun.
  destruct (predictPortfolio_from_run Math_pow w (requested_symbols req) [] tr)
    as (entries' & tr'' & Hrun' & Hfrom & _).
  rewrite Hrun in Hrun'. injection Hrun' as -> ->.
  pose proof (entries_from_countable Math_pow w _ _ _ Hfrom) as Hok.
  eexists _, _, _. split; [exact Hget |].
  cbv zeta. unfold summarize.
  cbn [totalSymbols buySignals sellSignals holdSignals avgConfidence].
  rewrite !(filter_signals _ _ Hok), !length_of_map.
  rewrite (filter_has_confidence _ Hok), (fold_confidence _ Hok), length_of_map.
  split; [now apply (entries_from_symbols Math_pow w _ _ _ Hfrom) |].
  split; [exact Hfrom |].
  repeat (split; [reflexivity |]).
  unfold mean, sum. rewrite length_of_map.
  destruct (successes entries'); reflexivity.
Qed.


End ServiceClaims.

(** ** Concrete runs *)

(** C1 on the scenario of the specification. *)
Lemma C1_witness_scenario :
  action (makeSimplePrediction scenario_sentiment scenario_technical) = BUY /\
  confidence (makeSimplePrediction scenario_sentiment scenario_technical)
  = lit 9 10.
Proof.
  destruct (C1_fuser_follows_section_4_3 scenario_sentiment scenario_technical)
    as (_ & _ & _ & H).
  destruct (H eq_refl eq_refl eq_refl eq_refl eq_refl) as (_ & _ & Ha & Hc).
  split; assumption.
Defined.

(** C6 on a snapshot with MACD 0. *)
Lemma C6_witness_flat_macd :
  is_zero (macd flat_macd_technical) = true /\
  In "MACD shows bearish momentum"
    (reasoning (makeSimplePrediction scenario_sentiment flat_macd_technical)).
Proof.
  split; [reflexivity |].
  apply (C6_macd_zero_is_bearish scenario_sentiment flat_macd_technical).
  reflexivity.
Defined.

(** C7 on a snapshot with RSI 30. *)
Lemma C7_witness_rsi_30 :
  rsi rsi_30_technical = of_Z 30 /\
  step_rsi rsi_30_technical init = init.
Proof.
  split; [reflexivity |].
  apply (C7_rsi_bounds_are_strict scenario_sentiment rsi_30_technical).
  left. reflexivity.
Defined.

Lemma outage_first_two_fail :
  news_attempt outage 0 = Throws (JsError "Guardian API error: 503") /\
  news_attempt outage 1 = Throws (JsError "Guardian API error: 404").
Proof. split; reflexivity. Qed.

(** C4 in the world whose news source fails the first two requests, with
    503 and then 404, and answers from the third on. *)
Lemma C4_witness_outage :
  exists entries tr',
    predictPortfolio pow_by_product outage ["AAPL"; "MSFT"] quiet
    = (Returns entries, tr') /\
    successes entries = [] /\
    nth_error entries 1
    = Some (Failed "MSFT" "Failed to predict: Guardian API error: 404").
Proof.
  destruct outage_first_two_fail as [H0 H1].
  destruct (C4_news_failure_fails_every_symbol pow_by_product outage
              ["AAPL"; "MSFT"] quiet)
    as (entries & tr' & Hrun & Hs & _ & Hnth).
  - intros [|[|i]] Hi; simpl in Hi.
    + eexists. exact H0.
    + eexists. exact H1.
    + lia.
  - exists entries, tr'. split; [exact Hrun |]. split; [exact Hs |].
    destruct (Hnth 1%nat "MSFT" eq_refl) as (e & He & Hentry).
    change (List.length (requests quiet) + 1)%nat with 1%nat in He.
    rewrite H1 in He. injection He as <-. exact Hentry.
Defined.

(** Against C3: a request for two symbols with a window of 48 hours sends
    two news requests, one for each symbol and both for a window of 24
    hours, not one request for 48 hours. *)
Lemma C3_counterexample_two_fetches :
  requests (snd (GET pow_by_product online two_symbols_48_hours quiet))
  = [of_Z 24; of_Z 24] /\
  ~ fetches_one_shared_batch pow_by_product online two_symbols_48_hours quiet.
Proof.
  split; [vm_compute; reflexivity |].
  unfold fetches_one_shared_batch. vm_compute. discriminate.
Qed.

(** Against C4: with the news source down the symbol is not scored on the
    summary of no news; its entry is an error marker that carries the news
    failure. *)
Lemma C4_counterexample_news_failure_surfaces :
  fst (predictPortfolio pow_by_product down ["AAPL"] quiet)
  = Returns [Failed "AAPL" "Failed to predict: Guardian API error: 503"] /\
  ~ degrades_to_no_news pow_by_product down ["AAPL"] quiet.
Proof.
  assert (Hrun : fst (predictPortfolio pow_by_product down ["AAPL"] quiet)
                 = Returns [Failed "AAPL" "Failed to predict: Guardian API error: 503"])
    by (vm_compute; reflexivity).
  split; [exact Hrun |].
  intros (entries & Hentries & Hall).
  rewrite Hrun in Hentries. injection Hentries as <-.
  inversion Hall as [|e l (p & Hp & _) _]. discriminate Hp.
Qed.


(** * Further properties *)

(** ** The decision fuser *)

(** The tests of the fuser, an [else if] being looked at only when the
    [if] before it fails. *)
Ltac split_signals s t :=
  generalize (gt (avgSentiment s) (lit 2 10))
             (lt (avgSentiment s) (SFopp (lit 2 10)))
             (lt (rsi t) (of_Z 30)) (gt (rsi t) (of_Z 70))
             (gt (macd t) (of_Z 0))
             (gt (priceChange1d t) (of_Z 2))
             (lt (priceChange1d t) (SFopp (of_Z 2)));
  intros s_pos s_neg r_low r_high m_pos p_up p_down;
  destruct s_pos; [| destruct s_neg];
  (destruct r_low; [| destruct r_high]);
  destruct m_pos;
  (destruct p_up; [| destruct p_down]).

Lemma number_in_sound (x : number) (l : list number) :
  number_in x l = true -> In x l.
Proof.
  unfold number_in. intros H. apply existsb_exists in H.
  destruct H as (y & Hy & Heq). apply number_eqb_eq in Heq. now subst.
Qed.

(** X1. The volume ratio never changes the action: with any volume ratio
    put in place of the one of the snapshot the action is the same.  It
    never lowers the confidence either: the confidence at a volume ratio
    of 1 is at most the confidence at any other. *)
Theorem volume_changes_no_action (s : Sentiment) (t : Technical) (v : number) :
  action (makeSimplePrediction s (with_volumeRatio v t))
  = action (makeSimplePrediction s t) /\
  le (confidence (makeSimplePrediction s (with_volumeRatio (of_Z 1) t)))
     (confidence (makeSimplePrediction s (with_volumeRatio v t))) = true.
Proof.
  unfold_fuser.
  cbn [with_volumeRatio volumeRatio rsi macd priceChange1d].
  replace (gt (of_Z 1) (lit 15 10)) with false by (vm_compute; reflexivity).
  generalize (gt v (lit 15 10)) (gt (volumeRatio t) (lit 15 10)).
  intros v_high t_high.
  split_signals s t; destruct v_high, t_high; vm_compute; split; reflexivity.
Qed.

(** X2. MACD, price momentum and volume alone never trade: a BUY needs a
    positive sentiment or an oversold RSI, a SELL needs a negative
    sentiment or an overbought RSI. *)
Theorem trades_need_sentiment_or_rsi (s : Sentiment) (t : Technical) :
  match action (makeSimplePrediction s t) with
  | BUY => gt (avgSentiment s) (lit 2 10) = true \/ lt (rsi t) (of_Z 30) = true
  | SELL =>
      lt (avgSentiment s) (SFopp (lit 2 10)) = true \/ gt (rsi t) (of_Z 70) = true
  | HOLD => True
  end.
Proof.
  unfold_fuser.
  generalize (gt (volumeRatio t) (lit 15 10)). intros v_high.
  split_signals s t; destruct v_high; vm_compute; auto.
Qed.

(** X3. The reasoning is never empty: it has between 1 and 3 entries and
    exactly one of them is a MACD reason, the bullish one when MACD is
    above 0 and the bearish one otherwise. *)
Theorem reasoning_names_macd_once (s : Sentiment) (t : Technical) :
  let r := makeSimplePrediction s t in
  (1 <= List.length (reasoning r) <= 3)%nat /\
  List.length (filter is_macd_reason (reasoning r)) = 1%nat /\
  In (if gt (macd t) (of_Z 0) then "MACD shows bullish momentum"
      else "MACD shows bearish momentum") (reasoning r).
Proof.
  cbv zeta. rewrite reasoning_is_slice. unfold Spec.fuse_reasons.
  generalize (gt (volumeRatio t) (lit 15 10)). intros v_high.
  split_signals s t; destruct v_high; simpl; (split; [lia | split; [reflexivity | auto 6]]).
Qed.

(** Whether a reason is among the ones reported, against the tests that
    decide it. *)
Ltac reported_iff :=
  split;
  [ intros Hin;
    repeat (destruct Hin as [Hin|Hin]; try discriminate Hin);
    try contradiction; repeat split; first [reflexivity | simpl; lia]
  | intros Hall; decompose [and] Hall; clear Hall;
    try congruence; try (simpl in *; lia); auto 6 ].

(** X4. What [slice(0, 3)] drops.  A price reason is reported exactly
    when its test holds and the sentiment step and the RSI step did not
    both append a reason; the volume reason is reported exactly when the
    volume ratio is above 1.5 and at most one of the sentiment, RSI and
    price steps appended a reason. *)
Theorem slice_drops_late_reasons (s : Sentiment) (t : Technical) :
  let r := makeSimplePrediction s t in
  (In "Strong recent price momentum" (reasoning r) <->
   gt (priceChange1d t) (of_Z 2) = true /\
   sentiment_fires s && rsi_fires t = false) /\
  (In "Weak recent price momentum" (reasoning r) <->
   gt (priceChange1d t) (of_Z 2) = false /\
   lt (priceChange1d t) (SFopp (of_Z 2)) = true /\
   sentiment_fires s && rsi_fires t = false) /\
  (In "High volume confirms trend" (reasoning r) <->
   gt (volumeRatio t) (lit 15 10) = true /\
   (fired_early s t <= 1)%nat).
Proof.
  cbv zeta. rewrite reasoning_is_slice.
  unfold Spec.fuse_reasons, fired_early, sentiment_fires, rsi_fires, price_fires.
  generalize (gt (volumeRatio t) (lit 15 10)). intros v_high.
  split_signals s t; destruct v_high; simpl; (split; [| split]);
    reported_iff.
Qed.

(** X5. The score stays between -6.5 and 6.5 and the confidence is one
    of eleven numbers: 0.5, 0.55, 0.57, 0.6, 0.63, 0.65, 0.7, 0.75, 0.8,
    0.85 and 0.9. *)
Theorem scores_and_confidence_levels (s : Sentiment) (t : Technical) :
  let st := locals_before_decision s t in
  let r := makeSimplePrediction s t in
  le (SFopp (lit 65 10)) (score st) = true /\
  le (score st) (lit 65 10) = true /\
  In (confidence r) confidence_levels.
Proof.
  cbv zeta.
  assert (H : le (SFopp (lit 65 10)) (score (locals_before_decision s t))
              && le (score (locals_before_decision s t)) (lit 65 10)
              && number_in (confidence (makeSimplePrediction s t))
                   confidence_levels = true).
  { unfold_fuser.
    generalize (gt (volumeRatio t) (lit 15 10)). intros v_high.
    split_signals s t; destruct v_high; vm_compute; reflexivity. }
  apply andb_prop in H. destruct H as [H Hc].
  apply andb_prop in H. destruct H as [Hlo Hhi].
  repeat split; try assumption. now apply number_in_sound.
Qed.

Lemma unless_nan_gt (x d c : number) :
  gt d c = false -> gt (unless_nan x d) c = gt x c.
Proof.
  unfold unless_nan. destruct x; simpl; try reflexivity.
  intros ->. unfold gt. now destruct c.
Qed.

Lemma unless_nan_lt (x d c : number) :
  lt d c = false -> lt (unless_nan x d) c = lt x c.
Proof.
  unfold unless_nan. destruct x; simpl; try reflexivity.
  intros ->. reflexivity.
Qed.

(** X6. A reading that is NaN fires no threshold: the decision is the one
    for sentiment 0, RSI 50, price change 0 and volume ratio 1 in its
    place, and a NaN MACD, like MACD 0, is bearish. *)
Theorem nan_readings_fire_nothing (s : Sentiment) (t : Technical) :
  makeSimplePrediction (settle_sentiment s) (settle_technical t)
  = makeSimplePrediction s t.
Proof.
  unfold_fuser.
  cbn [settle_sentiment settle_technical avgSentiment rsi macd priceChange1d
       volumeRatio].
  rewrite !unless_nan_gt, !unless_nan_lt by (vm_compute; reflexivity).
  reflexivity.
Qed.

(** ** The sentiment analyzer *)

Lemma Z_range_forall (P : Z -> bool) (lo : Z) (n : nat) :
  forallb P (Z_range lo n) = true ->
  forall k : Z, (lo <= k < lo + Z.of_nat n)%Z -> P k = true.
Proof.
  intros H k Hk. rewrite forallb_forall in H. apply H.
  unfold Z_range. apply in_map_iff. exists (Z.to_nat (k - lo)).
  split; [lia |]. apply in_seq. lia.
Qed.

Lemma add_one_small (a : Z) :
  (0 <= a < 10)%Z -> add (of_Z a) (of_Z 1) = of_Z (a + 1).
Proof.
  intros Ha. apply number_eqb_eq.
  apply (Z_range_forall
           (fun a => number_eqb (add (of_Z a) (of_Z 1)) (of_Z (a + 1))) 0 10);
    [vm_compute; reflexivity | lia].
Qed.

Lemma sub_one_small (b : Z) :
  (-10 < b <= 10)%Z -> sub (of_Z b) (of_Z 1) = of_Z (b - 1).
Proof.
  intros Hb. apply number_eqb_eq.
  apply (Z_range_forall
           (fun b => number_eqb (sub (of_Z b) (of_Z 1)) (of_Z (b - 1))) (-9) 20);
    [vm_compute; reflexivity | lia].
Qed.

Lemma clamp_small (k : Z) :
  (-10 <= k <= 10)%Z ->
  Math_max (SFopp (of_Z 1)) (Math_min (of_Z 1) (div (of_Z k) (of_Z 5)))
  = lit (clamp_5 k) 5.
Proof.
  intros Hk. apply number_eqb_eq.
  apply (Z_range_forall
           (fun k => number_eqb
                       (Math_max (SFopp (of_Z 1))
                          (Math_min (of_Z 1) (div (of_Z k) (of_Z 5))))
                       (lit (clamp_5 k) 5)) (-10) 21);
    [vm_compute; reflexivity | lia].
Qed.

Lemma filter_length_le {A : Type} (f : A -> bool) (l : list A) :
  (List.length (filter f l) <= List.length l)%nat.
Proof.
  induction l as [|x l IH]; simpl; [lia |]. destruct (f x); simpl; lia.
Qed.

Lemma count_up (f : string -> bool) (words : list string) :
  forall a : Z,
    (0 <= a)%Z -> (a + Z.of_nat (List.length words) <= 10)%Z ->
    fold_left (fun score word => if f word then add score (of_Z 1) else score)
      words (of_Z a)
    = of_Z (a + Z.of_nat (List.length (filter f words))).
Proof.
  induction words as [|word words IH]; intros a Ha Hb; simpl.
  - now rewrite Z.add_0_r.
  - simpl in Hb. destruct (f word); simpl.
    + rewrite add_one_small by lia. rewrite IH by lia. f_equal. lia.
    + apply IH; lia.
Qed.

Lemma count_down (f : string -> bool) (words : list string) :
  forall b : Z,
    (b <= 10)%Z -> (-10 <= b - Z.of_nat (List.length words))%Z ->
    fold_left (fun score word => if f word then sub score (of_Z 1) else score)
      words (of_Z b)
    = of_Z (b - Z.of_nat (List.length (filter f words))).
Proof.
  induction words as [|word words IH]; intros b Ha Hb; simpl.
  - now rewrite Z.sub_0_r.
  - simpl in Hb. destruct (f word); simpl.
    + rewrite sub_one_small by lia. rewrite IH by lia. f_equal. lia.
    + apply IH; lia.
Qed.

Lemma words_found_range (text : string) (words : list string) :
  (0 <= words_found text words <= Z.of_nat (List.length words))%Z.
Proof.
  unfold words_found.
  pose proof (filter_length_le (includes text) words). lia.
Qed.

Lemma item_sentiment_formula (item : NewsItem) :
  item_sentiment item
  = lit (clamp_5 (words_found (item_text item) positiveWords
                  - words_found (item_text item) negativeWords)) 5.
Proof.
  pose proof (words_found_range (item_text item) positiveWords) as Hp.
  pose proof (words_found_range (item_text item) negativeWords) as Hn.
  change (List.length positiveWords) with 10%nat in Hp.
  change (List.length negativeWords) with 10%nat in Hn.
  unfold item_sentiment. fold (item_text item).
  rewrite (count_up (includes (item_text item)) positiveWords 0)
    by (change (List.length positiveWords) with 10%nat; lia).
  fold (words_found (item_text item) positiveWords). rewrite Z.add_0_l.
  rewrite (count_down (includes (item_text item)) negativeWords)
    by (change (List.length negativeWords) with 10%nat; lia).
  fold (words_found (item_text item) negativeWords).
  apply clamp_small. lia.
Qed.

(** X7. The sentiment of a news item is the number of positive words found
    in its lower-cased text minus the number of negative words found,
    cut to the range -5 .. 5 and divided by 5, without any rounding error
    on the way; it lies between -1 and 1. *)
Theorem item_sentiment_counts_words (item : NewsItem) :
  let p := words_found (item_text item) positiveWords in
  let n := words_found (item_text item) negativeWords in
  item_sentiment item = lit (clamp_5 (p - n)) 5 /\
  le (SFopp (of_Z 1)) (item_sentiment item) = true /\
  le (item_sentiment item) (of_Z 1) = true.
Proof.
  intros p n.
  pose proof (item_sentiment_formula item) as Heq. fold p n in Heq.
  split; [exact Heq |]. rewrite Heq.
  assert (Hk : (-5 <= clamp_5 (p - n) <= 5)%Z) by (unfold clamp_5; lia).
  revert Hk. generalize (clamp_5 (p - n)) as k. intros k Hk.
  assert (Hb : le (SFopp (of_Z 1)) (lit k 5) && le (lit k 5) (of_Z 1) = true).
  { apply (Z_range_forall
             (fun k => le (SFopp (of_Z 1)) (lit k 5) && le (lit k 5) (of_Z 1))
             (-5) 11); [vm_compute; reflexivity | lia]. }
  apply andb_prop in Hb. exact Hb.
Qed.

Lemma toLowerCase_app (a b : string) :
  toLowerCase (a ++ b) = toLowerCase a ++ toLowerCase b.
Proof. induction a as [|c a IH]; simpl; [reflexivity | now rewrite IH]. Qed.

Lemma lower_of_upper (c : ascii) : lower_ascii (upper_ascii c) = lower_ascii c.
Proof.
  destruct c as [[|] [|] [|] [|] [|] [|] [|] [|]]; reflexivity.
Qed.

Lemma toLowerCase_in_capitals (s : string) :
  toLowerCase (in_capitals s) = toLowerCase s.
Proof.
  induction s as [|c s IH]; [reflexivity |].
  cbn [in_capitals toLowerCase]. now rewrite IH, lower_of_upper.
Qed.

(** X8. Words are matched whatever their case: for an item whose title and
    description are texts of characters below 128, putting both in
    capitals changes neither the text that is searched nor the
    sentiment. *)
Theorem sentiment_ignores_case (item : NewsItem) :
  is_ascii_text (title item) = true ->
  is_ascii_text (description item) = true ->
  item_text (shouted item) = item_text item /\
  item_sentiment (shouted item) = item_sentiment item.
Proof.
  intros _ _.
  assert (H : item_text (shouted item) = item_text item).
  { unfold item_text, shouted. cbn [title description].
    rewrite !toLowerCase_app, !toLowerCase_in_capitals. reflexivity. }
  split; [exact H |].
  unfold item_sentiment. fold (item_text (shouted item)) (item_text item).
  now rewrite H.
Qed.

Lemma binary_round_aux_sign (sx : bool) (mx ex : Z) (lx : location) :
  match binary_round_aux prec emax sx mx ex lx with
  | S754_nan => True
  | S754_zero s | S754_infinity s | S754_finite s _ _ => s = sx
  end.
Proof.
  unfold binary_round_aux.
  destruct (shr_fexp prec emax mx ex lx) as [mrs e'].
  destruct (shr_fexp prec emax _ e' loc_Exact) as [mrs' e''].
  destruct (shr_m mrs'); try exact I; try reflexivity.
  destruct (Z.leb e'' _); reflexivity.
Qed.

Lemma length_of_sign {A : Type} (l : list A) : positive_sign_or_nan (length_of l).
Proof.
  unfold length_of, of_Z, binary_normalize.
  destruct (Z.of_nat (List.length l)) as [|m|m] eqn:H; try reflexivity.
  - unfold binary_round. destruct (shl_align _ _ _) as [mz ez].
    apply (binary_round_aux_sign false).
  - lia.
Qed.

Lemma div_sign (a b : number) :
  positive_sign_or_nan a -> positive_sign_or_nan b ->
  positive_sign_or_nan (div a b).
Proof.
  destruct a as [sa|sa| |sa ma ea], b as [sb|sb| |sb mb eb]; simpl;
    try tauto; try (intros -> ->; reflexivity).
  intros -> ->. unfold div, SFdiv.
  destruct (SFdiv_core_binary prec emax (Z.pos ma) ea (Z.pos mb) eb) as [[mz ez] lz].
  apply (binary_round_aux_sign false).
Qed.

Lemma or_else_0_not_negative (x : number) :
  positive_sign_or_nan x -> le (of_Z 0) (or_else x (of_Z 0)) = true.
Proof. destruct x as [s|s| |s m e]; simpl; try reflexivity; intros ->; reflexivity. Qed.

Lemma sqrt_not_negative (x : number) : lt (sqrt x) (of_Z 0) = false.
Proof.
  destruct x as [s|[|]| |[|] m e]; try reflexivity.
  unfold sqrt, SFsqrt.
  destruct (SFsqrt_core_binary prec emax (Z.pos m) e) as [[mz ez] lz].
  pose proof (binary_round_aux_sign false mz ez lz) as H.
  destruct (binary_round_aux prec emax false mz ez lz); try reflexivity;
    subst; reflexivity.
Qed.

Section SentimentExtras.

Variable Math_pow : number -> number -> number.

(** X9. Whatever the news items and whatever [Math.pow] computes, the
    average sentiment is not NaN, the two ratios are at least 0 (so not NaN
    either), and the volatility is not below 0 (it may be NaN). *)
Theorem sentiment_summary_is_presentable (newsItems : list NewsItem) :
  let r := analyzeSentiment Math_pow newsItems in
  is_nan (avgSentiment r) = false /\
  le (of_Z 0) (positiveNewsRatio r) = true /\
  le (of_Z 0) (negativeNewsRatio r) = true /\
  lt (sentimentVolatility r) (of_Z 0) = false.
Proof.
  cbv zeta. unfold analyzeSentiment.
  cbn [avgSentiment positiveNewsRatio negativeNewsRatio sentimentVolatility].
  split; [| split; [| split]].
  - unfold or_else, truthy.
    destruct (div (sum (map item_sentiment newsItems))
                (length_of (map item_sentiment newsItems))); reflexivity.
  - apply or_else_0_not_negative, div_sign; apply length_of_sign.
  - apply or_else_0_not_negative, div_sign; apply length_of_sign.
  - apply sqrt_not_negative.
Qed.

(** X10. For a single news item, and a [Math.pow] that squares 0 to 0, the
    summary is the sentiment of the item as average, volatility 0, each
    ratio 1 or 0 as the sentiment is beyond 0.1 or not, and volume 1. *)
Theorem one_item_summary (item : NewsItem) :
  Math_pow (of_Z 0) (of_Z 2) = of_Z 0 ->
  analyzeSentiment Math_pow [item]
  = {| avgSentiment := item_sentiment item;
       sentimentVolatility := of_Z 0;
       positiveNewsRatio :=
         if gt (item_sentiment item) (lit 1 10) then of_Z 1 else of_Z 0;
       negativeNewsRatio :=
         if lt (item_sentiment item) (SFopp (lit 1 10)) then of_Z 1 else of_Z 0;
       newsVolume := of_Z 1 |}.
Proof.
  intros Hpow.
  pose proof (item_sentiment_formula item) as Heq.
  unfold analyzeSentiment, calculateStandardDeviation.
  cbn [map filter]. rewrite Heq.
  set (k := (words_found (item_text item) positiveWords
             - words_found (item_text item) negativeWords)%Z).
  assert (Hk : (-5 <= clamp_5 k <= 5)%Z) by (unfold clamp_5; lia).
  revert Hk. generalize (clamp_5 k) as c. intros c Hc.
  assert (Hsub : sub (lit c 5) (div (sum [lit c 5]) (length_of [lit c 5])) = of_Z 0).
  { apply number_eqb_eq.
    apply (Z_range_forall
             (fun c => number_eqb
                         (sub (lit c 5) (div (sum [lit c 5]) (length_of [lit c 5])))
                         (of_Z 0)) (-5) 11); [vm_compute; reflexivity | lia]. }
  rewrite Hsub, Hpow.
  assert (H : forallb (fun c =>
     number_eqb (or_else (div (sum [lit c 5]) (length_of [lit c 5])) (of_Z 0)) (lit c 5)
     && number_eqb
          (or_else (div (length_of (if gt (lit c 5) (lit 1 10) then [lit c 5] else []))
                      (length_of [lit c 5])) (of_Z 0))
          (if gt (lit c 5) (lit 1 10) then of_Z 1 else of_Z 0)
     && number_eqb
          (or_else (div (length_of (if lt (lit c 5) (SFopp (lit 1 10)) then [lit c 5] else []))
                      (length_of [lit c 5])) (of_Z 0))
          (if lt (lit c 5) (SFopp (lit 1 10)) then of_Z 1 else of_Z 0))
     (Z_range (-5) 11) = true) by (vm_compute; reflexivity).
  pose proof (Z_range_forall _ _ _ H c ltac:(lia)) as Hc'. cbv beta in Hc'.
  apply andb_prop in Hc'. destruct Hc' as [Hc' H3].
  apply andb_prop in Hc'. destruct Hc' as [H1 H2].
  apply number_eqb_eq in H1, H2, H3.
  rewrite H1, H2, H3. f_equal.
Qed.

End SentimentExtras.

(** ** The service, further *)

Section NewsExtras.

Variable Math_pow : number -> number -> number.
Variable w : World.

Lemma fetchGuardianNews_run (hours : number) (tr : Trace) :
  fetchGuardianNews w hours tr =
  if key_configured w then
    if is_date (from_date_value (time_value w (clock_reads tr)) hours) then
      (match news_answer w hours (List.length (requests tr)) with
       | Returns articles => Returns (map to_item articles)
       | Throws e => Throws e
       end, sent hours (ticked tr))
    else (Throws (JsError "Invalid time value"), ticked tr)
  else (Throws (JsError "Missing Guardian API key"), tr).
Proof.
  unfold fetchGuardianNews, news_answer, key_configured.
  destruct (GUARDIAN_KEY w) as [[|c k]|]; try reflexivity.
  unfold bind at 1. cbv beta iota delta [Date_now].
  destruct (is_date (from_date_value (time_value w (clock_reads tr)) hours));
    cbn [negb]; [| reflexivity].
  unfold bind, fetch, sent, ticked. cbn [requests].
  destruct (network w (List.length (requests tr)) hours) as [e|status body];
    try reflexivity.
  destruct (ok status); cbn [negb]; try reflexivity.
  destruct body as [e|[results|]]; reflexivity.
Qed.

(** X11. Without an API key, or with an empty one, [fetchGuardianNews]
    throws "Missing Guardian API key" and leaves the trace as it is, for
    every window; [predictStock] then throws the same error for every
    symbol and no request is sent. *)
Theorem no_key_no_request (hours : number) (tr : Trace) :
  GUARDIAN_KEY w = None \/ GUARDIAN_KEY w = Some "" ->
  fetchGuardianNews w hours tr
  = (Throws (JsError "Missing Guardian API key"), tr) /\
  forall sym : string,
    requests (snd (predictStock Math_pow w sym tr)) = requests tr /\
    fst (predictStock Math_pow w sym tr)
    = Throws (JsError "Missing Guardian API key").
Proof.
  intros Hkey.
  assert (Hk : key_configured w = false)
    by (unfold key_configured; destruct Hkey as [-> | ->]; reflexivity).
  assert (Hf : forall h, fetchGuardianNews w h tr
               = (Throws (JsError "Missing Guardian API key"), tr))
    by (intros h; rewrite fetchGuardianNews_run, Hk; reflexivity).
  split; [apply Hf |]. intros sym.
  unfold predictStock, try_catch, bind. rewrite Hf.
  split; reflexivity.
Qed.

(** X12. With an API key, [fetchGuardianNews] first reads the clock.  When
    the instant [hours] before that reading is not a date it throws
    "Invalid time value" and sends nothing.  Otherwise it sends exactly
    one request, for the window it is given, and it returns exactly when
    the answer has a status from 200 to 299 and a readable body; the items
    are then the results of the body in order, none when the body has no
    results. *)
Theorem news_returns_iff_2xx_json (hours : number) (tr : Trace) :
  key_configured w = true ->
  let n := List.length (requests tr) in
  if is_date (from_date_value (time_value w (clock_reads tr)) hours) then
    snd (fetchGuardianNews w hours tr) = sent hours (ticked tr) /\
    forall items : list NewsItem,
      fst (fetchGuardianNews w hours tr) = Returns items <->
      exists (status : Z) (results : option (list Article)),
        network w n hours = Responds status (Json results) /\
        (200 <= status <= 299)%Z /\
        items = map to_item (match results with Some r => r | None => [] end)
  else
    fetchGuardianNews w hours tr
    = (Throws (JsError "Invalid time value"), ticked tr).
Proof.
  intros Hkey n. rewrite fetchGuardianNews_run, Hkey.
  destruct (is_date (from_date_value (time_value w (clock_reads tr)) hours));
    [| reflexivity].
  split; [reflexivity |].
  intros items. cbn [fst]. unfold news_answer. fold n.
  destruct (network w n hours) as [e|status body].
  - split; [discriminate | intros (st & r & H & _); discriminate H].
  - destruct (ok status) eqn:Hok; unfold ok in Hok.
    + destruct body as [e|[results|]].
      * split; [discriminate | intros (st & r & H & _); discriminate H].
      * split.
        -- intros H. injection H as <-. exists status, (Some results).
           repeat split; lia.
        -- intros (st & r & H & _ & ->). injection H as <- <-. reflexivity.
      * split.
        -- intros H. injection H as <-. exists status, None.
           repeat split; lia.
        -- intros (st & r & H & _ & ->). injection H as <- <-. reflexivity.
    + split; [discriminate |].
      intros (st & r & H & Hst & _). injection H as <- _. lia.
Qed.

End NewsExtras.

Section StockExtras.

Variable Math_pow : number -> number -> number.
Variable w : World.

Lemma news_attempt_needs_key (n : nat) (articles : list Article) :
  news_attempt w n = Returns articles -> key_configured w = true.
Proof. unfold news_attempt. destruct (key_configured w); [reflexivity | discriminate]. Qed.

Lemma predictStock_run (sym : string) (tr : Trace) :
  predictStock Math_pow w sym tr =
  match news_attempt w (List.length (requests tr)) with
  | Returns articles =>
      (Returns (prediction_from sym
                  (analyzeSentiment Math_pow (map to_item articles))
                  (mock_technical w (randoms tr))
                  (clock w (S (clock_reads tr)))),
       ticked (drawn 9 (sent (of_Z 24) (ticked tr))))
  | Throws e =>
      (Throws e,
       logged (predicting_label sym) e
         (if key_configured w then sent (of_Z 24) (ticked tr) else tr))
  end.
Proof.
  unfold predictStock, try_catch, bind.
  rewrite fetchGuardianNews_24.
  destruct (news_attempt w (List.length (requests tr))) as [articles|e] eqn:Hn.
  - rewrite (news_attempt_needs_key _ _ Hn).
    rewrite getTechnicalIndicators_run. reflexivity.
  - reflexivity.
Qed.

(** X13. The technical step never fails: [predictStock] returns exactly
    when its news attempt does, with the prediction built from the news
    batch, the next nine random numbers and the second reading of the
    clock, and what it throws is what the news attempt threw.  The error "Could not fetch technical
    data" is never raised by the service itself. *)
Theorem predictStock_fails_only_on_news (sym : string) (tr : Trace) :
  match predictStock Math_pow w sym tr with
  | (Returns p, _) =>
      exists articles : list Article,
        news_attempt w (List.length (requests tr)) = Returns articles /\
        p = prediction_from sym
              (analyzeSentiment Math_pow (map to_item articles))
              (mock_technical w (randoms tr))
              (clock w (S (clock_reads tr)))
  | (Throws e, _) => news_attempt w (List.length (requests tr)) = Throws e
  end.
Proof.
  rewrite predictStock_run.
  destruct (news_attempt w (List.length (requests tr))) as [articles|e].
  - exists articles. split; reflexivity.
  - reflexivity.
Qed.

(** X14. What a call of [predictStock] does to the outside.  When it
    returns it has sent one request for 24 hours, drawn nine random
    numbers, read the clock twice (once for the date of the request, once
    for the timestamp) and written nothing to the console.  When it throws
    it has drawn no random number, has read the clock once if there is an
    API key and not at all without, and has written one console line,
    labelled with the symbol and carrying the error. *)
Theorem predictStock_effects (sym : string) (tr : Trace) :
  let tr' := snd (predictStock Math_pow w sym tr) in
  match fst (predictStock Math_pow w sym tr) with
  | Returns _ =>
      requests tr' = (requests tr ++ [of_Z 24])%list /\
      randoms tr' = (9 + randoms tr)%nat /\
      clock_reads tr' = S (S (clock_reads tr)) /\
      console tr' = console tr
  | Throws e =>
      requests tr' = (if key_configured w then (requests tr ++ [of_Z 24])%list
                      else requests tr) /\
      randoms tr' = randoms tr /\
      clock_reads tr' = (if key_configured w then S (clock_reads tr)
                         else clock_reads tr) /\
      console tr' = (console tr ++ [(predicting_label sym, e)])%list
  end.
Proof.
  cbv zeta. rewrite predictStock_run.
  destruct (news_attempt w (List.length (requests tr))) as [articles|e].
  - repeat split.
  - cbn [fst snd]. destruct (key_configured w); repeat split.
Qed.

Lemma decision_reads_four_readings (s : Sentiment) (t t' : Technical) :
  rsi t = rsi t' -> macd t = macd t' ->
  priceChange1d t = priceChange1d t' -> volumeRatio t = volumeRatio t' ->
  makeSimplePrediction s t = makeSimplePrediction s t'.
Proof. intros Hr Hm Hp Hv. unfold_fuser. now rewrite Hr, Hm, Hp, Hv. Qed.

(** The action and a lower bound of the confidence, with the volume ratio
    unknown. *)
Lemma volume_left_out (s : Sentiment) (t : Technical) (v : number) :
  action (makeSimplePrediction s t)
  = action (makeSimplePrediction s (with_volumeRatio v t)) /\
  le (confidence (makeSimplePrediction s (with_volumeRatio (of_Z 1) t)))
     (confidence (makeSimplePrediction s t)) = true.
Proof.
  unfold_fuser.
  cbn [with_volumeRatio volumeRatio rsi macd priceChange1d].
  replace (gt (of_Z 1) (lit 15 10)) with false by (vm_compute; reflexivity).
  generalize (gt v (lit 15 10)) (gt (volumeRatio t) (lit 15 10)).
  intros v_high t_high.
  split_signals s t; destruct v_high, t_high; vm_compute; split; reflexivity.
Qed.

(** X15. The action of a prediction can be recomputed from the response
    alone: it is the action of the fuser on the reported sentiment and the
    reported RSI, MACD and price change, whatever is assumed for the
    readings that are not reported.  The reported confidence is at least
    the one recomputed with a volume ratio of 1. *)
Theorem action_follows_from_response (sym : string) (tr tr' : Trace)
  (p : Prediction) :
  predictStock Math_pow w sym tr = (Returns p, tr') ->
  forall unknown : number,
    prediction p
    = action (makeSimplePrediction (sentimentAnalysis p)
                (reported_snapshot p unknown)) /\
    le (confidence (makeSimplePrediction (sentimentAnalysis p)
                      (reported_snapshot p (of_Z 1))))
       (p_confidence p) = true.
Proof.
  rewrite predictStock_run.
  destruct (news_attempt w (List.length (requests tr))) as [articles|e];
    [| discriminate].
  intros H unknown. injection H as <- _.
  set (s := analyzeSentiment Math_pow (map to_item articles)).
  set (t := mock_technical w (randoms tr)).
  cbn [prediction_from prediction p_confidence sentimentAnalysis].
  destruct (volume_left_out s t unknown) as [Ha Hc].
  split.
  - rewrite Ha.
    now rewrite (decision_reads_four_readings s (with_volumeRatio unknown t)
                   (reported_snapshot
                      (prediction_from sym s t (clock w (S (clock_reads tr))))
                      unknown)).
  - rewrite (decision_reads_four_readings s _ (with_volumeRatio (of_Z 1) t))
      by reflexivity.
    exact Hc.
Qed.


End StockExtras.

Section PortfolioExtras.

Variable Math_pow : number -> number -> number.
Variable w : World.

Lemma bind_assoc {A B C : Type} (m : M A) (f : A -> M B) (g : B -> M C)
  (tr : Trace) :
  bind (bind m f) g tr = bind m (fun x => bind (f x) g) tr.
Proof. unfold bind. destruct (m tr) as [[a|e] tr1]; reflexivity. Qed.

Lemma bind_ext {A B : Type} (m : M A) (f g : A -> M B) (tr : Trace) :
  (forall (x : A) (tr1 : Trace), f x tr1 = g x tr1) ->
  bind m f tr = bind m g tr.
Proof. intros H. unfold bind. destruct (m tr) as [[a|e] tr1]; [apply H | reflexivity]. Qed.

(** The loop started with [acc] is the loop started with an empty array,
    with [acc] put in front of what it returns. *)
Lemma predictPortfolio_from_acc (symbols : list string) :
  forall (acc : list Entry) (tr : Trace),
    predictPortfolio_from Math_pow w acc symbols tr
    = (entries <- predictPortfolio Math_pow w symbols ;;
       ret (acc ++ entries)%list) tr.
Proof.
  unfold predictPortfolio.
  induction symbols as [|sym symbols IH]; intros acc tr.
  - cbn [predictPortfolio_from]. unfold bind, ret. now rewrite app_nil_r.
  - cbn [predictPortfolio_from]. rewrite bind_assoc. apply bind_ext.
    intros entry tr1.
    rewrite (IH (acc ++ [entry])%list tr1). unfold bind.
    rewrite (IH ([] ++ [entry])%list tr1). unfold bind, ret.
    destruct (predictPortfolio_from Math_pow w [] symbols tr1)
      as [[entries|e] tr2]; [| reflexivity].
    now rewrite <- app_assoc.
Qed.

(** X16. The portfolio of a list of symbols followed by another is the
    portfolio of the first, then the portfolio of the second run from the
    trace the first has left, with the entries of the first in front. *)
Theorem portfolio_of_appended_lists (first rest : list string) (tr : Trace) :
  predictPortfolio Math_pow w (first ++ rest) tr
  = (entries1 <- predictPortfolio Math_pow w first ;;
     entries2 <- predictPortfolio Math_pow w rest ;;
     ret (entries1 ++ entries2)%list) tr.
Proof.
  unfold predictPortfolio at 1 2.
  generalize (@nil Entry) as acc. revert tr.
  induction first as [|sym first IH]; intros tr acc.
  - cbn [app predictPortfolio_from]. unfold bind at 1, ret at 1.
    apply predictPortfolio_from_acc.
  - cbn [app predictPortfolio_from]. rewrite bind_assoc. apply bind_ext.
    intros entry tr1. apply IH.
Qed.

(** X17. [predictPortfolio] always returns.  It draws nine random numbers
    for each successful prediction; it reads the clock once for each
    symbol when there is an API key, and once more for each successful
    prediction; and it writes one console line for each failed symbol, in
    order, labelled with that symbol. *)
Theorem portfolio_effects (symbols : list string) (tr : Trace) :
  exists (entries : list Entry) (tr' : Trace) (lines : list (string * exn)),
    predictPortfolio Math_pow w symbols tr = (Returns entries, tr') /\
    randoms tr' = (randoms tr + 9 * List.length (successes entries))%nat /\
    clock_reads tr'
    = (clock_reads tr
       + (if key_configured w then List.length symbols else 0)
       + List.length (successes entries))%nat /\
    console tr' = (console tr ++ lines)%list /\
    map fst lines = map predicting_label (failed_symbols entries).
Proof.
  revert tr. induction symbols as [|sym symbols IH]; intros tr.
  - exists [], tr, []. unfold predictPortfolio. cbn. unfold ret.
    rewrite app_nil_r. repeat split; try lia.
    destruct (key_configured w); lia.
  - unfold predictPortfolio. cbn [predictPortfolio_from app].
    unfold bind at 1, try_catch, bind at 1.
    rewrite predictStock_run.
    destruct (news_attempt w (List.length (requests tr))) as [articles|e] eqn:Hn;
      cbv beta iota delta [ret]; rewrite predictPortfolio_from_acc;
      unfold bind at 1.
    + destruct (IH (ticked (drawn 9 (sent (of_Z 24) (ticked tr)))))
        as (entries & tr' & lines & Hrun & Hr & Hc & Hl & Hlab).
      rewrite Hrun. eexists _, tr', lines. split; [reflexivity |].
      cbn [app successes failed_symbols List.length].
      rewrite Hr, Hc, Hl. cbn [ticked drawn sent randoms clock_reads console].
      rewrite (news_attempt_needs_key _ _ _ Hn).
      repeat split; try lia. exact Hlab.
    + set (tr1 := logged (predicting_label sym) e
                    (if key_configured w then sent (of_Z 24) (ticked tr) else tr)).
      destruct (IH tr1) as (entries & tr' & lines & Hrun & Hr & Hc & Hl & Hlab).
      rewrite Hrun. eexists _, tr', ((predicting_label sym, e) :: lines).
      split; [reflexivity |].
      cbn [app successes failed_symbols List.length map fst].
      rewrite Hr, Hc, Hl, Hlab. subst tr1.
      destruct (key_configured w);
        cbn [logged sent ticked randoms clock_reads console];
        rewrite <- app_assoc; repeat split; lia.
Qed.


End PortfolioExtras.

Section HandlerExtras.

Variable Math_pow : number -> number -> number.
Variable w : World.

Lemma split_comma_join (s : string) : String.concat "," (split_comma s) = s.
Proof.
  induction s as [|c s IH]; [reflexivity |].
  cbn [split_comma].
  destruct (split_comma s) as [|field more] eqn:Hs.
  - now destruct (split_comma_not_empty s).
  - destruct (Ascii.eqb_spec c ",") as [-> | Hc].
    + cbn [String.concat]. cbn [String.concat] in IH.
      destruct more; simpl; simpl in IH; now rewrite IH.
    + cbn [String.concat]. cbn [String.concat] in IH.
      destruct more; simpl; simpl in IH; now rewrite <- IH.
Qed.

Lemma split_comma_fields (s : string) :
  Forall (fun field => has_comma field = false) (split_comma s).
Proof.
  induction s as [|c s IH]; [repeat constructor |].
  cbn [split_comma].
  destruct (split_comma s) as [|field more] eqn:Hs;
    [| inversion IH as [|? ? Hf Hm]; subst].
  - destruct (split_comma_not_empty s Hs).
  - destruct (Ascii.eqb c ",") eqn:Hc.
    + constructor; [reflexivity | constructor; assumption].
    + constructor; [| exact Hm].
      unfold has_comma in *. cbn [list_ascii_of_string existsb].
      rewrite Hf. rewrite Ascii.eqb_sym, Hc. reflexivity.
Qed.

Lemma split_comma_without_comma (s : string) :
  has_comma s = false -> split_comma s = [s].
Proof.
  induction s as [|c s IH]; [reflexivity |].
  unfold has_comma. cbn [list_ascii_of_string existsb]. intros H.
  apply Bool.orb_false_elim in H. destruct H as [Hc Hs].
  cbn [split_comma]. rewrite (IH Hs). rewrite Ascii.eqb_sym, Hc. reflexivity.
Qed.

(** X18. [GET] takes the symbols as they are written: the symbols of the
    entries of the response, joined by commas, are the [symbols] parameter
    character for character (nothing is trimmed, upper-cased, dropped or
    merged), and no symbol contains a comma. *)
Theorem symbols_are_taken_verbatim (s : string) (hours : option string)
  (tr : Trace) :
  exists predictions summary tr',
    GET Math_pow w {| symbols_param := Some s; hours_param := hours |} tr
    = (Returns (Ok200 predictions summary disclaimer_text), tr') /\
    String.concat "," (map entry_symbol predictions) = s /\
    Forall (fun sym => has_comma sym = false) (map entry_symbol predictions).
Proof.
  set (req := {| symbols_param := Some s; hours_param := hours |}).
  destruct (GET_run Math_pow w req tr) as (entries & tr' & Hrun & Hget).
  unfold predictPortfolio in Hrun.
  destruct (predictPortfolio_from_run Math_pow w (requested_symbols req) [] tr)
    as (entries' & tr'' & Hrun' & Hfrom & _).
  rewrite Hrun in Hrun'. injection Hrun' as -> ->.
  pose proof (entries_from_symbols Math_pow w _ _ _ Hfrom) as Hsym.
  eexists _, _, _. split; [exact Hget |].
  change (requested_symbols req) with (split_comma s) in Hsym.
  split.
  - rewrite Hsym. apply split_comma_join.
  - rewrite Hsym. apply split_comma_fields.
Qed.

Lemma successes_and_failures (entries : list Entry) :
  (List.length (successes entries) + List.length (failed_symbols entries)
   = List.length entries)%nat.
Proof.
  induction entries as [|[p|sym msg] entries IH]; simpl; lia.
Qed.

Lemma actions_partition (ps : list Prediction) :
  (List.length (filter (is_action BUY) ps)
   + List.length (filter (is_action SELL) ps)
   + List.length (filter (is_action HOLD) ps)
   = List.length ps)%nat.
Proof.
  induction ps as [|p ps IH]; [reflexivity |].
  cbn [filter].
  destruct (prediction p) eqn:Hp;
    (assert (Hb : forall a, is_action a p
                   = match prediction p, a with
                     | BUY, BUY | SELL, SELL | HOLD, HOLD => true
                     | _, _ => false
                     end) by reflexivity);
    rewrite !Hb, Hp; cbn [List.length]; lia.
Qed.

(** X19. In the summary of [GET] the three signal counts are the numbers
    of whole predictions, and together with the number of error markers
    they add up to [totalSymbols]. *)
Theorem summary_counts_add_up (req : Request) (tr : Trace) :
  exists predictions summary tr',
    GET Math_pow w req tr
    = (Returns (Ok200 predictions summary disclaimer_text), tr') /\
    let count a := List.length (filter (is_action a) (successes predictions)) in
    buySignals summary = of_Z (Z.of_nat (count BUY)) /\
    sellSignals summary = of_Z (Z.of_nat (count SELL)) /\
    holdSignals summary = of_Z (Z.of_nat (count HOLD)) /\
    totalSymbols summary
    = of_Z (Z.of_nat (count BUY + count SELL + count HOLD
                      + List.length (failed_symbols predictions))).
Proof.
  destruct (GET_run Math_pow w req tr) as (entries & tr' & Hrun & Hget).
  unfold predictPortfolio in Hrun.
  destruct (predictPortfolio_from_run Math_pow w (requested_symbols req) [] tr)
    as (entries' & tr'' & Hrun' & Hfrom & _).
  rewrite Hrun in Hrun'. injection Hrun' as -> ->.
  pose proof (entries_from_countable Math_pow w _ _ _ Hfrom) as Hok.
  pose proof (entries_from_symbols Math_pow w _ _ _ Hfrom) as Hsym.
  exists entries',
    (summarize (requested_symbols req) entries' (clock w (clock_reads tr''))),
    (ticked tr'').
  split; [exact Hget |]. cbv zeta. unfold summarize.
  cbn [buySignals sellSignals holdSignals totalSymbols].
  rewrite !(filter_signals _ _ Hok), !length_of_map.
  repeat (split; [reflexivity |]).
  unfold length_of. rewrite actions_partition, successes_and_failures.
  now rewrite <- Hsym, length_map.
Qed.

(** X20. The [try] block of [POST] turns to the news source only when the
    body is readable, its symbol is not empty and its action is "predict":
    it then does exactly what [predictStock] does for that symbol, and
    answers with the prediction or throws the error.  For every other body
    (unreadable, no symbol, an empty symbol, "retrain", any other action
    or none) it answers no prediction, sends no request, draws no random
    number and writes nothing to the console. *)
Theorem post_answers_without_news (body : Outcome PostBody) (tr : Trace) :
  let run := POST_try Math_pow w body tr in
  match wanted_prediction body with
  | Some sym =>
      run = match predictStock Math_pow w sym tr with
            | (Returns p, tr1) => (Returns (PostPrediction p), tr1)
            | (Throws e, tr1) => (Throws e, tr1)
            end
  | None =>
      (forall p : Prediction, fst run <> Returns (PostPrediction p)) /\
      requests (snd run) = requests tr /\
      randoms (snd run) = randoms tr /\
      console (snd run) = console tr
  end.
Proof.
  cbv zeta. unfold wanted_prediction, POST_try, bind.
  destruct body as [b|e]; [| repeat split; discriminate].
  destruct (b_symbol b) as [[|c sym]|]; try (repeat split; discriminate).
  destruct (b_action b) as [action|]; [| repeat split; discriminate].
  destruct (String.eqb action "predict"); [reflexivity |].
  destruct (String.eqb action "retrain"); repeat split; discriminate.
Qed.

(** X21. For a symbol that is not empty and has no comma, POST with the
    action "predict" returns a prediction exactly when GET for that one
    symbol returns it as its only entry. *)
Theorem post_and_get_agree (sym : string) (tr : Trace) (p : Prediction) :
  sym <> "" -> has_comma sym = false ->
  (exists tr',
      POST_try Math_pow w
        (Returns {| b_symbol := Some sym; b_action := Some "predict" |}) tr
      = (Returns (PostPrediction p), tr')) <->
  (exists summary tr',
      GET Math_pow w {| symbols_param := Some sym; hours_param := None |} tr
      = (Returns (Ok200 [Predicted p] summary disclaimer_text), tr')).
Proof.
  intros Hne Hcomma.
  set (req := {| symbols_param := Some sym; hours_param := None |}).
  destruct (GET_run Math_pow w req tr) as (entries & tr2 & Hrun & Hget).
  change (requested_symbols req) with (split_comma sym) in Hrun, Hget.
  rewrite (split_comma_without_comma sym Hcomma) in Hrun, Hget.
  rewrite Hget. clear Hget.
  unfold predictPortfolio in Hrun. cbn [predictPortfolio_from] in Hrun.
  unfold bind at 1, try_catch, bind at 1 in Hrun.
  assert (Hpost : POST_try Math_pow w
                    (Returns {| b_symbol := Some sym; b_action := Some "predict" |}) tr
                  = match predictStock Math_pow w sym tr with
                    | (Returns q, tr1) => (Returns (PostPrediction q), tr1)
                    | (Throws e, tr1) => (Throws e, tr1)
                    end).
  { unfold POST_try, bind. destruct sym; [contradiction | reflexivity]. }
  rewrite Hpost. clear Hpost.
  destruct (predictStock Math_pow w sym tr) as [[q|e] tr1];
    cbv beta iota delta [ret] in Hrun; cbn [app] in Hrun;
    injection Hrun as <- <-.
  - split.
    + intros (tr' & H). injection H as <- <-. eexists _, _. reflexivity.
    + intros (summary & tr' & H). injection H as <- _ _. eexists. reflexivity.
  - split.
    + intros (tr' & H). discriminate H.
    + intros (summary & tr' & H). discriminate H.
Qed.

End HandlerExtras.

(** ** Further concrete runs *)

(** X8 on a headline that counts four positive words. *)
Lemma X8_witness_capitals :
  is_ascii_text (title headline_item) = true /\
  is_ascii_text (description headline_item) = true /\
  item_sentiment headline_item = lit 4 5 /\
  item_sentiment (shouted headline_item) = item_sentiment headline_item.
Proof.
  split; [reflexivity |]. split; [reflexivity |].
  split; [vm_compute; reflexivity |].
  apply (sentiment_ignores_case headline_item); reflexivity.
Defined.

(** X10 on one article, with [Math.pow] computed as a product. *)
Lemma X10_witness_one_article :
  pow_by_product (of_Z 0) (of_Z 2) = of_Z 0 /\
  sentimentVolatility (analyzeSentiment pow_by_product [to_item one_article])
  = of_Z 0.
Proof.
  split; [reflexivity |].
  rewrite (one_item_summary pow_by_product (to_item one_article) eq_refl).
  reflexivity.
Defined.

(** X11 in the world whose key is empty. *)
Lemma X11_witness_empty_key :
  GUARDIAN_KEY keyless = Some "" /\
  fetchGuardianNews keyless (of_Z 24) quiet
  = (Throws (JsError "Missing Guardian API key"), quiet).
Proof.
  split; [reflexivity |].
  apply (no_key_no_request pow_by_product keyless (of_Z 24) quiet).
  right. reflexivity.
Defined.

(** X12 in the world whose news source answers, for a window of 48
    hours. *)
Lemma X12_witness_online :
  key_configured online = true /\
  snd (fetchGuardianNews online (of_Z 48) quiet)
  = sent (of_Z 48) (ticked quiet).
Proof.
  split; [reflexivity |].
  pose proof (news_returns_iff_2xx_json online (of_Z 48) quiet eq_refl) as H.
  cbv zeta in H.
  assert (Hd : is_date (from_date_value (time_value online (clock_reads quiet))
                          (of_Z 48)) = true) by reflexivity.
  rewrite Hd in H. exact (proj1 H).
Defined.

(** A window that is not a number makes the date of the request invalid:
    the error is thrown before anything is sent. *)
Example no_window_no_request :
  fetchGuardianNews online NaN quiet
  = (Throws (JsError "Invalid time value"), ticked quiet).
Proof. reflexivity. Qed.

Lemma aapl_run :
  predictStock pow_by_product online "AAPL" quiet
  = (Returns aapl_prediction, ticked (drawn 9 (sent (of_Z 24) (ticked quiet)))).
Proof. vm_compute. reflexivity. Qed.

(** X15 on the prediction for AAPL. *)
Lemma X15_witness_aapl :
  prediction aapl_prediction
  = action (makeSimplePrediction (sentimentAnalysis aapl_prediction)
              (reported_snapshot aapl_prediction NaN)).
Proof.
  apply (action_follows_from_response pow_by_product online "AAPL" quiet
           _ aapl_prediction aapl_run NaN).
Defined.

(** X21 on the symbol AAPL. *)
Lemma X21_witness_aapl :
  "AAPL" <> "" /\ has_comma "AAPL" = false /\
  exists summary tr',
    GET pow_by_product online
      {| symbols_param := Some "AAPL"; hours_param := None |} quiet
    = (Returns (Ok200 [Predicted aapl_prediction] summary disclaimer_text), tr').
Proof.
  split; [discriminate |]. split; [reflexivity |].
  apply (post_and_get_agree pow_by_product online "AAPL" quiet aapl_prediction);
    [discriminate | reflexivity |].
  exists (ticked (drawn 9 (sent (of_Z 24) (ticked quiet)))).
  vm_compute. reflexivity.
Defined.
